(** * SharkGuard: the heuristic rule layer, the Etherscan wrapper and the
      Streamlit script, embedded and verified.

    Sources embedded here:
    - [app.py], lines 62-198: the model controls of the sidebar and the
      Analyze block, with the heuristic rules of lines 179-189;
    - [utils/etherscan.py]: [fetch_transactions].

    Python objects are an inductive type, a dictionary is a [gmap], a number
    is its exact value (or a NaN or an infinity), a fallible call returns a
    [result], and the script threads its page, its standard output, the model
    file and the model cache through a state and error monad.

    [sharkguard/core.py] (the normalizer, the feature extractor and the model
    wrapper) is not part of the sources at hand.  The script is parametrised
    over it; where a statement is about the extractor or the model itself,
    they are modelled from the specification and marked so. *)

From Stdlib Require Import QArith.
From stdpp Require Import gmap strings list fin_maps.

Local Open Scope string_scope.
Local Open Scope list_scope.

(** ** Python values *)

(** A Python [float] is an IEEE double: a NaN, an infinity, or a finite value,
    which is a rational number.  Comparisons in CPython are exact, also between
    an [int] and a [float], so a finite number is represented by its exact
    rational value. *)
Inductive number : Type :=
  | NaN
  | Inf (negative : bool)
  | Fin (q : Q).

(** The objects that flow through the program: what [json.loads] can return
    and what a feature dictionary can hold. *)
#[local] Unset Elimination Schemes.
Inductive pyobj : Type :=
  | PNone
  | PBool (b : bool)
  | PInt (z : Z)
  | PFloat (x : number)
  | PStr (s : string)
  | PList (l : list pyobj)
  | PDict (d : gmap string pyobj).
#[local] Set Elimination Schemes.

(** ** Exceptions *)

Inductive exn_class : Type :=
  | TypeError | KeyError | AttributeError | ValueError | ZeroDivisionError
  | OSError | ConnectionError | Timeout | HTTPError | JSONDecodeError
  | RuntimeError | UnicodeEncodeError | BrokenPipeError
  | KeyboardInterrupt | SystemExit.

Record exn : Type := mkExn { exn_cls : exn_class; exn_msg : string }.

(** [except Exception] catches every class but the ones that derive from
    [BaseException] only. *)
Definition is_Exception (c : exn_class) : bool :=
  match c with
  | KeyboardInterrupt | SystemExit => false
  | _ => true
  end.

Inductive result (A : Type) : Type :=
  | Ok (a : A)
  | Raise (e : exn).
Arguments Ok {A} a.
Arguments Raise {A} e.

(** Sequencing: the first exception raised ends the computation. *)
#[global] Instance result_ret : MRet result := fun A a => Ok a.
#[global] Instance result_bind : MBind result := fun A B k r =>
  match r with
  | Ok a => k a
  | Raise e => Raise e
  end.

Definition raises {A} (r : result A) : Prop := exists e, r = Raise e.
Definition returns {A} (r : result A) : Prop := exists a, r = Ok a.

(** ** Numeric comparison *)

Definition Qltb (a b : Q) : bool := negb (Qle_bool b a).

(** [x < y] on numbers: false as soon as a NaN is involved. *)
Definition num_lt (x y : number) : bool :=
  match x, y with
  | NaN, _ | _, NaN => false
  | Inf true, Inf true => false
  | Inf true, _ => true
  | _, Inf true => false
  | Inf false, _ => false
  | Fin _, Inf false => true
  | Fin a, Fin b => Qltb a b
  end.

(** [x > y] is the reflected [y < x]. *)
Definition num_gt (x y : number) : bool := num_lt y x.

(** [x >= y] and [x <= y]; like [<], false on a NaN. *)
Definition num_le (x y : number) : bool :=
  match x, y with
  | NaN, _ | _, NaN => false
  | Inf true, _ => true
  | _, Inf false => true
  | Inf false, _ => false
  | Fin _, Inf true => false
  | Fin a, Fin b => Qle_bool a b
  end.

Definition num_ge (x y : number) : bool := num_le y x.

(** The numeric value of an object, when it is a number ([bool] is a subclass
    of [int]). *)
Definition as_number (v : pyobj) : option number :=
  match v with
  | PBool b => Some (Fin (if b then 1 else 0))
  | PInt z => Some (Fin (inject_Z z))
  | PFloat x => Some x
  | _ => None
  end.

Definition type_error : exn :=
  mkExn TypeError "'<' not supported between these instances".

(** [v < lit] and [v > lit] where [lit] is a numeric literal: every
    non-numeric [v] makes Python raise [TypeError]. *)
Definition py_lt (v : pyobj) (lit : number) : result bool :=
  match as_number v with
  | Some x => Ok (num_lt x lit)
  | None => Raise type_error
  end.

Definition py_gt (v : pyobj) (lit : number) : result bool :=
  match as_number v with
  | Some x => Ok (num_gt x lit)
  | None => Raise type_error
  end.

(** The literals of the rule layer.  [0.6] is not a binary fraction: the
    literal denotes the nearest double, 5404319552844595 / 2^53. *)
Definition lit_3 : number := Fin (inject_Z 3).
Definition lit_50 : number := Fin (inject_Z 50).
Definition lit_0_6 : number := Fin (5404319552844595 # 9007199254740992).
Definition lit_1_0 : number := Fin (inject_Z 1).

(** [d.get(k, default)] *)
Definition dict_get (d : gmap string pyobj) (k : string) (dflt : pyobj) : pyobj :=
  default dflt (d !! k).

(** ** The heuristic rule layer ([app.py], lines 179-189) *)

Definition FLAG_FEW_TX : string :=
  "Very few transactions — new or dormant account".
Definition FLAG_HIGH_FREQ : string :=
  "Extremely high transaction frequency — bot-like behavior".
Definition FLAG_REPEATED : string :=
  "High repeated_ratio — interacting with the same counterparty often".
Definition FLAG_LOW_ENTROPY : string :=
  "Low hour entropy — very regular timing".
Definition NO_FLAGS : string :=
  "No strong heuristic flags detected ✅".

(** [expl.append(s)] under a condition; the list is threaded as state. *)
Definition append_if (c : bool) (s : string) (expl : list string) : list string :=
  if c then expl ++ [s] else expl.

(** [not expl] for a list: true exactly on the empty list. *)
Definition py_not_list {A} (l : list A) : bool :=
  match l with [] => true | _ => false end.

Definition heuristic_signals (feat : gmap string pyobj) : result (list string) :=
  let expl := [] in
  c1 ← py_lt (dict_get feat "tx_count" (PInt 0)) lit_3;
  let expl := append_if c1 FLAG_FEW_TX expl in
  c2 ← py_gt (dict_get feat "tx_freq_per_day" (PInt 0)) lit_50;
  let expl := append_if c2 FLAG_HIGH_FREQ expl in
  c3 ← py_gt (dict_get feat "repeated_ratio" (PInt 0)) lit_0_6;
  let expl := append_if c3 FLAG_REPEATED expl in
  c4 ← py_lt (dict_get feat "hour_entropy" (PInt 10)) lit_1_0;
  let expl := append_if c4 FLAG_LOW_ENTROPY expl in
  let expl := append_if (py_not_list expl) NO_FLAGS expl in
  Ok expl.

(** ** The Etherscan wrapper ([utils/etherscan.py]) *)

Definition ETHERSCAN_BASE : string := "https://api.etherscan.io/api".

(** What [requests.get] is called with. *)
Record request : Type := mkRequest {
  req_url : string;
  req_params : gmap string pyobj;
  req_timeout : Z
}.

(** What [requests.get] returns: the status code, and what [r.json()] does
    with the body (the decoded value, or the exception it raises). *)
Record response : Type := mkResponse {
  status_code : Z;
  json : result pyobj
}.

(** The HTTP layer is the environment of the wrapper: for a request it either
    raises or returns a response. *)
Definition http_layer : Type := request -> result response.

(** [r.raise_for_status()]: [HTTPError] for the 4xx and 5xx codes, nothing
    for the others. *)
Definition raise_for_status (r : response) : result unit :=
  if bool_decide (400 <= status_code r < 600)%Z
  then Raise (mkExn HTTPError "HTTP error status")
  else Ok tt.

(** [data.get(k, dflt)] on an arbitrary object: only a dict has [get]. *)
Definition py_get (data : pyobj) (k : string) (dflt : pyobj) : result pyobj :=
  match data with
  | PDict d => Ok (dict_get d k dflt)
  | _ => Raise (mkExn AttributeError "object has no attribute 'get'")
  end.

(** [v != s] for a string literal [s]: a string equals strings only. *)
Definition py_ne_str (v : pyobj) (s : string) : bool :=
  match v with
  | PStr s' => negb (bool_decide (s' = s))
  | _ => true
  end.

Definition fetch_params (address api_key startblock endblock sort : pyobj)
  : gmap string pyobj :=
  <["module" := PStr "account"]> (
  <["action" := PStr "txlist"]> (
  <["address" := address]> (
  <["startblock" := startblock]> (
  <["endblock" := endblock]> (
  <["sort" := sort]> (
  <["apikey" := api_key]> ∅)))))).

(** The body of the [try] block. *)
Definition fetch_body (http : http_layer) (params : gmap string pyobj)
  : result pyobj :=
  r ← http (mkRequest ETHERSCAN_BASE params 20);
  _ ← raise_for_status r;
  data ← json r;
  status ← py_get data "status" PNone;
  if py_ne_str status "1" then Ok (PList [])
  else py_get data "result" (PList []).

(** The standard output takes a piece of text, or it cannot (it cannot
    encode it, its pipe is broken, it is closed) and the write raises; which
    of the two may depend on what it took before.  The errors of a stream
    derive from [Exception]. *)
Inductive stream_error : Type := CannotEncode | BrokenPipe | Closed.

Definition console : Type := list string -> string -> option stream_error.

Definition stream_exn (err : stream_error) : exn :=
  match err with
  | CannotEncode =>
      mkExn UnicodeEncodeError "codec can't encode character"
  | BrokenPipe => mkExn BrokenPipeError "[Errno 32] Broken pipe"
  | Closed => mkExn ValueError "I/O operation on closed file."
  end.

(** [print] writes its arguments one after the other, a space between them
    and a newline at the end; the first write that fails ends it, with what
    was written before left on the output. *)
Fixpoint write_all (out : console) (written pieces : list string)
  : list string * result unit :=
  match pieces with
  | [] => ([], Ok tt)
  | piece :: rest =>
      match out written piece with
      | Some err => ([], Raise (stream_exn err))
      | None =>
          let r := write_all out (written ++ [piece]) rest in
          (piece :: fst r, snd r)
      end
  end.

Definition newline : string := String (Ascii.ascii_of_nat 10) "".

Definition WARNING : string := "⚠️  Etherscan request failed:".

(** The pieces of [print("⚠️  Etherscan request failed:", e)]. *)
Definition warning_pieces (e : exn) : list string :=
  [WARNING; " "; exn_msg e; newline].

(** What [fetch_transactions] does: what it writes to the standard output
    and its outcome.  The [print] of the handler is outside any [try]: when
    it raises, the exception is the outcome. *)
Definition fetch_transactions (http : http_layer) (out : console)
    (address api_key startblock endblock sort : pyobj)
  : list string * result pyobj :=
  let params := fetch_params address api_key startblock endblock sort in
  match fetch_body http params with
  | Ok v => ([], Ok v)
  | Raise e =>
      if is_Exception (exn_cls e)
      then let printed := write_all out [] (warning_pieces e) in
           (fst printed, _ ← snd printed; Ok (PList []))
      else ([], Raise e)
  end.

(** The call of [app.py]: the three optional arguments at their defaults. *)
Definition fetch_transactions_default (http : http_layer) (out : console)
    (address api_key : pyobj)
  : list string * result pyobj :=
  fetch_transactions http out address api_key
    (PInt 0) (PInt 99999999) (PStr "asc").

(** ** The Streamlit script ([app.py], from line 62 on) *)

(** [sharkguard.core] as [app.py] uses it.  The module is not among the
    sources at hand, so the script is parametrised over it: a model and a
    table type, and for each function its outcome.  [predict_score] reads the
    model and the features and mutates neither (the model is effectively
    immutable once fitted). *)
Record Core : Type := mkCore {
  Model : Type;
  DataFrame : Type;
  (** [SharkGuardModel().load(path)], from the bytes stored at the path *)
  model_load : string -> result Model;
  (** [sg.predict_score(feat)] *)
  predict_score : Model -> gmap string pyobj -> result pyobj;
  txs_to_dataframe : pyobj -> result DataFrame;
  extract_wallet_features : DataFrame -> string -> result (gmap string pyobj);
  (** [train_and_persist_model(df, path)]: the bytes it stores at the path *)
  train_and_persist_model : DataFrame -> result string
}.

(** The world outside the script during one run: the HTTP layer, the
    standard output, pandas, the file system operations that can fail, and
    Python's formatting. *)
Record Env (C : Core) : Type := mkEnv {
  http : http_layer;
  stdout_stream : console;
  sim_features_exists : bool;
  read_csv_sim : result (DataFrame C);
  (** [df.sample(1).T]: the row drawn, or the exception of pandas (a table
      without rows has nothing to draw) *)
  df_sample_T : DataFrame C -> result (DataFrame C);
  df_new : DataFrame C;
  df_empty : DataFrame C -> bool;
  df_head : nat -> DataFrame C -> DataFrame C;
  write_bytes : string -> result unit;
  format_3f : pyobj -> result string;
  format_exc : exn -> string
}.
Arguments http {C} _.
Arguments stdout_stream {C} _.
Arguments sim_features_exists {C} _.
Arguments read_csv_sim {C} _.
Arguments df_sample_T {C} _ _.
Arguments df_new {C} _.
Arguments df_empty {C} _ _.
Arguments df_head {C} _ _ _.
Arguments write_bytes {C} _ _.
Arguments format_3f {C} _ _.
Arguments format_exc {C} _ _.

(** The widgets of the page, as the user left them for this run. *)
Record widgets : Type := mkWidgets {
  etherscan_key : string;
  wallet : string;
  use_sample : bool;
  reload_clicked : bool;
  uploaded : option string;
  train_clicked : bool;
  analyze_clicked : bool
}.

(** What the script shows, in the order of the calls. *)
Inductive ui_event (C : Core) : Type :=
  | SidebarWrite (s : string)
  | SidebarSuccess (s : string)
  | SidebarError (s : string)
  | SidebarWarning (s : string)
  | SidebarText (s : string)
  | SidebarMarkdown (s : string)
  | SidebarSubheader (s : string)
  | StWrite (args : list pyobj)
  | StSubheader (s : string)
  | StCaption (s : string)
  | StSuccess (s : string)
  | StError (s : string)
  | StInfo (s : string)
  | StWarning (s : string)
  | StSpinner (s : string)
  | StText (s : string)
  | StJson (feat : gmap string pyobj)
  | StMetric (label value : string)
  | StDataframe (df : DataFrame C).
Arguments SidebarWrite {C} s.
Arguments SidebarSuccess {C} s.
Arguments SidebarError {C} s.
Arguments SidebarWarning {C} s.
Arguments SidebarText {C} s.
Arguments SidebarMarkdown {C} s.
Arguments SidebarSubheader {C} s.
Arguments StWrite {C} args.
Arguments StSubheader {C} s.
Arguments StCaption {C} s.
Arguments StSuccess {C} s.
Arguments StError {C} s.
Arguments StInfo {C} s.
Arguments StWarning {C} s.
Arguments StSpinner {C} s.
Arguments StText {C} s.
Arguments StJson {C} feat.
Arguments StMetric {C} label value.
Arguments StDataframe {C} df.

(** The state a run threads: the page so far, the standard output, the model
    file at [MODEL_PATH], and the process-wide cache of [st.cache_resource]
    (one entry, as [load_model] is only called with [MODEL_PATH]). *)
Record state (C : Core) : Type := mkState {
  ui : list (ui_event C);
  stdout : list string;
  model_file : option string;
  cache : option (Model C)
}.
Arguments mkState {C} _ _ _ _.
Arguments ui {C} _.
Arguments stdout {C} _.
Arguments model_file {C} _.
Arguments cache {C} _.

Definition MODEL_PATH : string := "models/isolation_model.joblib".
Definition SIM_FEATURES_NAME : string := "simulated_features.csv".

(** A step of the script: it changes the state, and returns or raises.  The
    state a raising step leaves is kept. *)
Definition M (C : Core) (A : Type) : Type := state C -> state C * result A.

#[global] Instance M_ret (C : Core) : MRet (M C) := fun A a s => (s, Ok a).
#[global] Instance M_bind (C : Core) : MBind (M C) := fun A B k m s =>
  match m s with
  | (s', Ok a) => k a s'
  | (s', Raise e) => (s', Raise e)
  end.

Definition lift {C A} (r : result A) : M C A := fun s => (s, r).

Definition emit {C} (e : ui_event C) : M C unit := fun s =>
  (mkState (ui s ++ [e]) (stdout s) (model_file s) (cache s), Ok tt).

Definition set_model_file {C} (b : string) : M C unit := fun s =>
  (mkState (ui s) (stdout s) (Some b) (cache s), Ok tt).

Definition model_path_exists {C} : M C bool := fun s =>
  (s, Ok (bool_decide (is_Some (model_file s)))).

(** [try: body except Exception as e: handler] *)
Definition try_except {C A} (body : M C A) (handler : exn -> M C A) : M C A :=
  fun s =>
    match body s with
    | (s', Raise e) =>
        if is_Exception (exn_cls e) then handler e s' else (s', Raise e)
    | r => r
    end.

(** [for x in xs: body x] *)
Fixpoint for_each {C A} (xs : list A) (body : A -> M C unit) : M C unit :=
  match xs with
  | [] => mret tt
  | x :: xs' => _ ← body x; for_each xs' body
  end.

(** [res[k]]: a dict without the key raises [KeyError], another object is not
    subscriptable by a string. *)
Definition py_getitem (v : pyobj) (k : string) : result pyobj :=
  match v with
  | PDict d =>
      match d !! k with
      | Some x => Ok x
      | None => Raise (mkExn KeyError k)
      end
  | _ => Raise (mkExn TypeError "object is not subscriptable by str")
  end.

(** The truth value of a string: non-empty. *)
Definition py_truthy_str (s : string) : bool := negb (bool_decide (s = "")).

Definition NO_MODEL_WARNING : string :=
  "No model loaded. Train or upload a model to get a suspicion score.".

Section Script.
Context (C : Core) (E : Env C) (W : widgets).

(** [load_model], under [st.cache_resource]: a cached model is returned as
    it is; a failed load is not cached. *)
Definition load_model : M C (Model C) := fun s =>
  match cache s with
  | Some m => (s, Ok m)
  | None =>
      match model_file s with
      | None => (s, Raise (mkExn OSError "No such file or directory"))
      | Some b =>
          match model_load C b with
          | Ok m => (mkState (ui s) (stdout s) (model_file s) (Some m), Ok m)
          | Raise e => (s, Raise e)
          end
      end
  end.

(** Lines 64-72. *)
Definition initial_load : M C (option (Model C)) :=
  let model_status := "Not loaded" in
  let sg := None in
  ex ← model_path_exists;
  r ← (if (ex : bool)
       then try_except
              (m ← load_model; mret (Some m, "Loaded from " +:+ MODEL_PATH))
              (fun e => mret (sg, "Failed to load (" +:+ exn_msg e +:+ ")"))
       else mret (sg, model_status));
  _ ← emit (SidebarWrite (snd r));
  mret (fst r).

(** Lines 74-82. *)
Definition reload_block (sg : option (Model C)) : M C (option (Model C)) :=
  if reload_clicked W then
    ex ← model_path_exists;
    if (ex : bool) then
      try_except
        (m ← load_model;
         _ ← emit (SidebarSuccess "Model reloaded.");
         mret (Some m))
        (fun e => _ ← emit (SidebarError ("Reload failed: " +:+ exn_msg e));
                  mret sg)
    else
      _ ← emit (SidebarWarning "No model file found. Train or upload one.");
      mret sg
  else mret sg.

(** Lines 85-93. *)
Definition upload_block (sg : option (Model C)) : M C (option (Model C)) :=
  match uploaded W with
  | None => mret sg
  | Some data =>
      try_except
        (_ ← lift (write_bytes E data);
         _ ← set_model_file data;
         m ← load_model;
         _ ← emit (SidebarSuccess "Uploaded and loaded model.");
         mret (Some m))
        (fun e =>
           _ ← emit (SidebarError
                       ("Failed to save/load uploaded model: " +:+ exn_msg e));
           mret sg)
  end.

(** Lines 96-108. *)
Definition train_block (sg : option (Model C)) : M C (option (Model C)) :=
  _ ← emit (SidebarMarkdown "---");
  if train_clicked W then
    if sim_features_exists E then
      try_except
        (df ← lift (read_csv_sim E);
         b ← lift (train_and_persist_model C df);
         _ ← set_model_file b;
         m ← load_model;
         _ ← emit (SidebarSuccess
                     ("Model trained and saved to " +:+ MODEL_PATH));
         mret (Some m))
        (fun e =>
           _ ← emit (SidebarError ("Training failed: " +:+ exn_msg e));
           _ ← emit (SidebarText (format_exc E e));
           mret sg)
    else
      _ ← emit (SidebarWarning
                  "Simulated features file not found. Run `python data/simulate.py` first.");
      mret sg
  else mret sg.

(** Lines 110-125. *)
Definition main_area_header : M C unit :=
  _ ← emit (SidebarMarkdown "---");
  _ ← emit (SidebarMarkdown
              "Need help? Make sure `sharkguard/core.py` and `utils/etherscan.py` are present.");
  _ ← emit (StWrite
              [PStr "Use the sidebar to load/train/upload a model. Then enter a wallet and click Analyze."]);
  _ ← emit (StSubheader "Analyze wallet");
  if sim_features_exists E
  then emit (StCaption ("Sim features: " +:+ SIM_FEATURES_NAME))
  else emit (StCaption "No simulated features found").

(** Lines 141-151: the transactions, possibly none. *)
Definition fetch_step : M C pyobj := fun s =>
  let out := fun written => stdout_stream E (stdout s ++ written) in
  let r := fetch_transactions_default (http E) out
             (PStr (wallet W)) (PStr (etherscan_key W)) in
  (mkState (ui s) (stdout s ++ fst r) (model_file s) (cache s), snd r).

Definition fetch_block : M C pyobj :=
  if py_truthy_str (etherscan_key W) then
    try_except
      (_ ← emit (StSpinner "Fetching transactions from Etherscan...");
       fetch_step)
      (fun e => _ ← emit (StError ("Etherscan fetch failed: " +:+ exn_msg e));
                mret (PList []))
  else
    _ ← emit (StInfo
                "No Etherscan key provided — will not fetch on-chain transactions (empty).");
    mret (PList []).

(** Lines 153-158. *)
Definition dataframe_block (txs : pyobj) : M C (DataFrame C) :=
  try_except
    (lift (txs_to_dataframe C txs))
    (fun e =>
       _ ← emit (StError
                   ("Failed to convert transactions to DataFrame: " +:+ exn_msg e));
       mret (df_new E)).

(** Lines 164-175: model inference. *)
Definition score_block (sg : option (Model C)) (feat : gmap string pyobj)
  : M C unit :=
  match sg with
  | None => emit (StWarning NO_MODEL_WARNING)
  | Some m =>
      try_except
        (res ← lift (predict_score C m feat);
         score ← lift (py_getitem res "score");
         shown ← lift (format_3f E score);
         _ ← emit (StMetric "Suspicion Score (0 = normal, 1 = suspicious)" shown);
         label ← lift (py_getitem res "label");
         _ ← emit (StWrite [PStr "Label:"; label]);
         raw ← lift (py_getitem res "raw");
         emit (StWrite [PStr "Raw model score:"; raw]))
        (fun e =>
           _ ← emit (StError ("Model prediction failed: " +:+ exn_msg e));
           emit (StText (format_exc E e)))
  end.

(** Lines 177-191: heuristic explanations. *)
Definition heuristics_block (feat : gmap string pyobj) : M C unit :=
  _ ← emit (StSubheader "Heuristic signals");
  expl ← lift (heuristic_signals feat);
  for_each expl (fun e => emit (StWrite [PStr "- "; PStr e])).

(** Lines 193-198. *)
Definition raw_block (df : DataFrame C) : M C unit :=
  _ ← emit (StSubheader "Raw transactions (first 20)");
  if negb (df_empty E df)
  then emit (StDataframe (df_head E 20 df))
  else emit (StWrite [PStr "No transactions to show (empty)."]).

(** Lines 164-191, the two scoring paths on one feature vector. *)
Definition scoring_paths (sg : option (Model C)) (feat : gmap string pyobj)
  : M C unit :=
  _ ← score_block sg feat;
  heuristics_block feat.

(** Lines 128-198. *)
Definition analyze_block (sg : option (Model C)) : M C unit :=
  if use_sample W then
    if sim_features_exists E then
      df_feats ← lift (read_csv_sim E);
      _ ← emit (StSuccess "Loaded simulated features — showing a random sample");
      row ← lift (df_sample_T E df_feats);
      emit (StDataframe row)
    else
      emit (StError "Simulated features file not present. Run: python data/simulate.py")
  else if negb (py_truthy_str (wallet W)) then
    emit (StError
            "Please enter a wallet address (0x...) or enable 'Use simulated sample features'.")
  else
    txs ← fetch_block;
    df ← dataframe_block txs;
    feat ← lift (extract_wallet_features C df (wallet W));
    _ ← emit (StSubheader "Extracted features");
    _ ← emit (StJson feat);
    _ ← scoring_paths sg feat;
    raw_block df.

(** Lines 62-108: the model controls of the sidebar; what they leave in
    [sg]. *)
Definition model_controls : M C (option (Model C)) :=
  _ ← emit (SidebarMarkdown "---");
  _ ← emit (SidebarSubheader "Model");
  sg ← initial_load;
  sg ← reload_block sg;
  sg ← upload_block sg;
  train_block sg.

(** One run of the script, from the model controls (line 62) to the end. *)
Definition script : M C unit :=
  sg ← model_controls;
  _ ← main_area_header;
  if analyze_clicked W then analyze_block sg else mret tt.

End Script.

(** The flags a page shows: the second argument of each [st.write("- ", e)]. *)
Definition flag_of_event {C} (ev : ui_event C) : option string :=
  match ev with
  | StWrite [PStr "- "; PStr e] => Some e
  | _ => None
  end.

Definition flags_shown {C} (evs : list (ui_event C)) : list string :=
  omap flag_of_event evs.

Definition is_metric {C} (ev : ui_event C) : bool :=
  match ev with StMetric _ _ => true | _ => false end.

(** No suspicion score among the events. *)
Definition no_metric {C} (evs : list (ui_event C)) : Prop :=
  Forall (fun ev => is_metric ev = false) evs.

Definition flag_writes {C} (flags : list string) : list (ui_event C) :=
  map (fun f => StWrite [PStr "- "; PStr f]) flags.

(** An outcome that, when it is an exception, is one [except Exception]
    catches. *)
Definition ordinary {A} (r : result A) : Prop :=
  forall e, r = Raise e -> is_Exception (exn_cls e) = true.

(** A feature dictionary: every value it holds is a number. *)
Definition is_feature_vector (feat : gmap string pyobj) : Prop :=
  map_Forall (fun _ v => is_Some (as_number v)) feat.

(** The number a rule reads: the value under the key, or the default. *)
Definition feature_number (feat : gmap string pyobj) (k : string) (dflt : Z)
  : option number :=
  as_number (dict_get feat k (PInt dflt)).

(** ** The rule table of the specification (section 4.4) *)

Inductive rule_kind : Type := Below | Above.

Record rule : Type := mkRule {
  rule_feature : string;
  rule_kind_of : rule_kind;
  rule_threshold : number;
  rule_flag : string
}.

Definition rule_holds (r : rule) (x : number) : bool :=
  match rule_kind_of r with
  | Below => num_lt x (rule_threshold r)
  | Above => num_gt x (rule_threshold r)
  end.

(** The four rules in the order of the table, for given flag texts. *)
Definition rule_table (f1 f2 f3 f4 : string) : list rule :=
  [ mkRule "tx_count" Below lit_3 f1;
    mkRule "tx_freq_per_day" Above lit_50 f2;
    mkRule "repeated_ratio" Above lit_0_6 f3;
    mkRule "hour_entropy" Below lit_1_0 f4 ].

(** The table with the flag texts the specification prints. *)
Definition spec_table : list rule :=
  rule_table "very few transactions — new/dormant account"
             "extremely high frequency — bot-like"
             "high repeated-counterparty ratio"
             "low hour entropy — regular timing".

(** The table with the flag texts of [app.py]. *)
Definition code_table : list rule :=
  rule_table FLAG_FEW_TX FLAG_HIGH_FREQ FLAG_REPEATED FLAG_LOW_ENTROPY.

(** [evaluate] as the specification words it: the flags of the rules that
    fire, in table order; a single no-flags entry when none fires. *)
Definition evaluate (table : list rule) (no_flags : string)
    (value : string -> number) : list string :=
  let fired :=
    map rule_flag
        (List.filter (fun r => rule_holds r (value (rule_feature r))) table) in
  match fired with
  | [] => [no_flags]
  | _ => fired
  end.

(** The value of a feature in a dictionary that may lack it: the default of
    the corresponding [feat.get] ([10] for [hour_entropy], [0] for the
    others); a NaN stands for a value that is not a number. *)
Definition feature_default (k : string) : Z :=
  if bool_decide (k = "hour_entropy") then 10%Z else 0%Z.

Definition feature_value (feat : gmap string pyobj) (k : string) : number :=
  default NaN (feature_number feat k (feature_default k)).

(** The values a double can take around the literal [0.6]: the doubles of
    magnitude at least 1/2 are multiples of 2^-53, and every other double is
    below 1/2. *)
Definition on_binary64_grid (q : Q) : Prop :=
  (exists k : Z, q == k # 9007199254740992)%Q \/ (q < 1 # 2)%Q.

(** ** The feature extractor (specification, sections 3 and 4.2) *)

Record Transaction : Type := mkTransaction {
  timestamp : Z;
  sender : string;
  receiver : string;
  value : Q;
  nonce : Z
}.

(** [a / b], which raises on a zero divisor. *)
Definition py_div (a b : Q) : result Q :=
  if Qeq_bool b 0 then Raise (mkExn ZeroDivisionError "division by zero")
  else Ok (a / b)%Q.

Definition involves (wallet : string) (t : Transaction) : bool :=
  bool_decide (sender t = wallet) || bool_decide (receiver t = wallet).

(** The address on the other side of the wallet. *)
Definition counterparty (wallet : string) (t : Transaction) : string :=
  if bool_decide (sender t = wallet) then receiver t else sender t.

Definition hour_of_day (t : Transaction) : Z := ((timestamp t / 3600) mod 24)%Z.

Definition earliest (txs : list Transaction) : Z :=
  match txs with
  | [] => 0%Z
  | t :: ts => fold_right Z.min (timestamp t) (map timestamp ts)
  end.

Definition latest (txs : list Transaction) : Z :=
  match txs with
  | [] => 0%Z
  | t :: ts => fold_right Z.max (timestamp t) (map timestamp ts)
  end.

(** The span between the earliest and the latest transaction, in days. *)
Definition span_days (txs : list Transaction) : Q :=
  (inject_Z (latest txs - earliest txs) / inject_Z 86400)%Q.

Definition SCHEMA : list string :=
  ["tx_count"; "tx_freq_per_day"; "repeated_ratio"; "hour_entropy"].

Section Extractor.

(** The Shannon entropy of a list of hours, in the base the implementation
    fixes; it is only used on two transactions or more. *)
Variable shannon_entropy : list Z -> Q.

(** Modelled from the spec: [extract_wallet_features] of
    [sharkguard/core.py], which is not among the sources at hand.  Section
    4.2: the count of the transactions involving the wallet; the count per
    day of span, [0] when the span is zero or there is at most one
    transaction; one minus the share of distinct counterparties, [0] when
    the count is [0]; the entropy of the hours of day, [10] when there are
    zero or one transactions. *)
Definition extract (txs : list Transaction) (wallet : string)
  : result (gmap string pyobj) :=
  let mine := List.filter (involves wallet) txs in
  let tx_count := Z.of_nat (length mine) in
  let distinct := Z.of_nat (length (remove_dups (map (counterparty wallet) mine))) in
  tx_freq_per_day ←
    (if (length txs <=? 1)%nat || Qeq_bool (span_days txs) 0
     then Ok 0%Q
     else py_div (inject_Z tx_count) (span_days txs));
  repeated_ratio ←
    (if (tx_count =? 0)%Z
     then Ok 0%Q
     else d ← py_div (inject_Z distinct) (inject_Z tx_count); Ok (1 - d)%Q);
  let hour_entropy :=
    if (length txs <=? 1)%nat then 10%Q
    else shannon_entropy (map hour_of_day txs) in
  Ok (<["tx_count" := PInt tx_count]> (
      <["tx_freq_per_day" := PFloat (Fin tx_freq_per_day)]> (
      <["repeated_ratio" := PFloat (Fin repeated_ratio)]> (
      <["hour_entropy" := PFloat (Fin hour_entropy)]> ∅)))).

End Extractor.

(** ** The anomaly model and its persistence (specification, section 4.3) *)

Record ScoreResult : Type := mkScoreResult {
  score : Q;
  label : string;
  raw : Q
}.

Definition SCHEMA_VERSION : N := 1%N.

(** Modelled from the spec: the estimator of [sharkguard/core.py], which is
    not among the sources at hand, is isolation-based (sections 2 and 4.3).
    An isolation tree: a leaf, which holds the number of training vectors
    that reached it, or the split of one feature at a threshold. *)
Inductive itree : Type :=
  | ILeaf (n_samples : N)
  | ISplit (feature : nat) (threshold : Q) (below above : itree).

(** A fitted model: the feature order fixed at fit time, the fitted scaling
    parameters (offset and scale per feature), and the estimator, a forest
    of isolation trees. *)
Record FittedModel : Type := mkFitted {
  feature_order : list string;
  scaling : list (Q * Q);
  estimator : list itree
}.

Definition scale_one (p : Q * Q) (x : Q) : Q := ((x - fst p) / snd p)%Q.

Fixpoint scale (ps : list (Q * Q)) (xs : list Q) : list Q :=
  match ps, xs with
  | p :: ps', x :: xs' => scale_one p x :: scale ps' xs'
  | _, _ => xs
  end.

(** The number of splits a vector passes before it reaches a leaf. *)
Fixpoint isolation_depth (t : itree) (xs : list Q) : Q :=
  match t with
  | ILeaf _ => 0%Q
  | ISplit f th below above =>
      if Qltb (nth f xs 0%Q) th
      then (1 + isolation_depth below xs)%Q
      else (1 + isolation_depth above xs)%Q
  end.

(** Modelled from the spec: the raw score, on the scale of the model
    (section 4.3: an isolation depth), summed over the forest. *)
Definition raw_score (forest : list itree) (xs : list Q) : Q :=
  fold_right (fun t acc => (isolation_depth t xs + acc)%Q) 0%Q forest.

Section AnomalyModel.

(** The transform of the raw score into [0,1] and the label threshold are
    the implementation's choice. *)
Variable calibrate : Q -> Q.
Variable threshold : Q.

(** Modelled from the spec: the scoring of [SharkGuardModel]
    ([sharkguard/core.py], not among the sources at hand).  Section 4.3:
    the feature order of fit time is enforced (a vector with a missing or
    an extra key fails fast), the raw score, an isolation depth, is mapped
    to [0,1] by a fixed transform and thresholded into a label. *)
Definition score_features (m : FittedModel) (fv : gmap string Q)
  : result ScoreResult :=
  if bool_decide (dom fv = list_to_set (feature_order m) :> gset string)
  then
    let xs := map (fun k => default 0%Q (fv !! k)) (feature_order m) in
    let r := raw_score (estimator m) (scale (scaling m) xs) in
    let s := calibrate r in
    Ok (mkScoreResult s
          (if Qle_bool threshold s then "suspicious" else "normal") r)
  else Raise (mkExn ValueError "feature schema mismatch").

End AnomalyModel.

(** *** The serialised form *)

(** Modelled from the spec: the on-disk artifact (section 4.3), which the
    specification leaves opaque; here a sequence of integers: the format
    version, then the feature order, the scaling parameters and the forest,
    each sequence behind its length.  A string is the sequence of its
    character codes, a rational its numerator and its denominator, a leaf
    the tag [0] and its count, a split the tag [1], the feature, the
    threshold and the two subtrees. *)
Definition Blob : Type := list Z.

Definition enc_Q (q : Q) : list Z := [Qnum q; Zpos (Qden q)].

Definition enc_pair (p : Q * Q) : list Z := enc_Q (fst p) ++ enc_Q (snd p).

Definition enc_char (c : Ascii.ascii) : list Z :=
  [Z.of_nat (Ascii.nat_of_ascii c)].

Definition enc_list {A} (enc : A -> list Z) (xs : list A) : list Z :=
  Z.of_nat (length xs) :: concat (map enc xs).

Definition enc_string (s : string) : list Z :=
  enc_list enc_char (String.list_ascii_of_string s).

Fixpoint enc_tree (t : itree) : list Z :=
  match t with
  | ILeaf n => [0%Z; Z.of_N n]
  | ISplit f th below above =>
      1%Z :: Z.of_nat f :: enc_Q th ++ enc_tree below ++ enc_tree above
  end.

(** Modelled from the spec: [persist] of the model wrapper (section 4.3):
    the fitted estimator with its scaling parameters and feature order,
    serialised under the format version. *)
Definition persist (m : FittedModel) : Blob :=
  Z.of_N SCHEMA_VERSION
  :: enc_list enc_string (feature_order m)
  ++ enc_list enc_pair (scaling m)
  ++ enc_list enc_tree (estimator m).

(** A reader takes a value off the front of the sequence, or fails. *)
Definition Reader (A : Type) : Type := list Z -> option (A * list Z).

Definition dec_nat : Reader nat := fun ts =>
  match ts with
  | z :: rest => if bool_decide (0 <= z)%Z then Some (Z.to_nat z, rest) else None
  | [] => None
  end.

Definition dec_Q : Reader Q := fun ts =>
  match ts with
  | num :: den :: rest =>
      if bool_decide (0 < den)%Z then Some (num # Z.to_pos den, rest) else None
  | _ => None
  end.

Definition dec_pair : Reader (Q * Q) := fun ts =>
  match dec_Q ts with
  | Some (a, rest) =>
      match dec_Q rest with
      | Some (b, rest') => Some ((a, b), rest')
      | None => None
      end
  | None => None
  end.

Definition dec_char : Reader Ascii.ascii := fun ts =>
  match ts with
  | z :: rest =>
      if bool_decide (0 <= z < 256)%Z
      then Some (Ascii.ascii_of_nat (Z.to_nat z), rest)
      else None
  | [] => None
  end.

Fixpoint dec_repeat {A} (dec : Reader A) (n : nat) : Reader (list A) := fun ts =>
  match n with
  | O => Some ([], ts)
  | S n' =>
      match dec ts with
      | Some (a, rest) =>
          match dec_repeat dec n' rest with
          | Some (others, rest') => Some (a :: others, rest')
          | None => None
          end
      | None => None
      end
  end.

Definition dec_list {A} (dec : Reader A) : Reader (list A) := fun ts =>
  match dec_nat ts with
  | Some (n, rest) => dec_repeat dec n rest
  | None => None
  end.

Definition dec_string : Reader string := fun ts =>
  match dec_list dec_char ts with
  | Some (cs, rest) => Some (String.string_of_list_ascii cs, rest)
  | None => None
  end.

(** A tree is read by descent; the fuel bounds the depth. *)
Fixpoint dec_tree_fuel (fuel : nat) : Reader itree := fun ts =>
  match fuel with
  | O => None
  | S fuel' =>
      match ts with
      | 0%Z :: n :: rest =>
          if bool_decide (0 <= n)%Z then Some (ILeaf (Z.to_N n), rest) else None
      | 1%Z :: f :: rest =>
          if bool_decide (0 <= f)%Z then
            match dec_Q rest with
            | Some (th, rest1) =>
                match dec_tree_fuel fuel' rest1 with
                | Some (below, rest2) =>
                    match dec_tree_fuel fuel' rest2 with
                    | Some (above, rest3) =>
                        Some (ISplit (Z.to_nat f) th below above, rest3)
                    | None => None
                    end
                | None => None
                end
            | None => None
            end
          else None
      | _ => None
      end
  end.

(** Every tree takes two integers at least, so that the length of what is
    left to read is fuel enough. *)
Definition dec_tree : Reader itree := fun ts => dec_tree_fuel (length ts) ts.

Definition dec_model : Reader FittedModel := fun ts =>
  match dec_list dec_string ts with
  | Some (features, rest) =>
      match dec_list dec_pair rest with
      | Some (params, rest') =>
          match dec_list dec_tree rest' with
          | Some (forest, rest'') => Some (mkFitted features params forest, rest'')
          | None => None
          end
      | None => None
      end
  | None => None
  end.

(** Modelled from the spec: [restore] of the model wrapper (section 4.3):
    a blob of another schema version is rejected with an error, and so is
    one that does not deserialise to a model. *)
Definition restore (b : Blob) : result FittedModel :=
  match b with
  | version :: body =>
      if bool_decide (version = Z.of_N SCHEMA_VERSION) then
        match dec_model body with
        | Some (m, []) => Ok m
        | _ => Raise (mkExn ValueError "corrupt model artifact")
        end
      else Raise (mkExn ValueError "model schema version mismatch")
  | [] => Raise (mkExn ValueError "corrupt model artifact")
  end.

(** A reader that reads back what an encoder wrote, whatever follows. *)
Definition reads_back {A} (enc : A -> list Z) (dec : Reader A) : Prop :=
  forall a rest, dec (enc a ++ rest) = Some (a, rest).

Fixpoint height (t : itree) : nat :=
  match t with
  | ILeaf _ => 0
  | ISplit _ _ below above => S (Nat.max (height below) (height above))
  end.

(** ** Auxiliary definitions and sample inputs *)

Definition ALL_FLAGS : list string :=
  [FLAG_FEW_TX; FLAG_HIGH_FREQ; FLAG_REPEATED; FLAG_LOW_ENTROPY].

(** Scenario 2 of the specification: a hundred transactions within a day, all
    with one counterparty. *)
Definition scenario_2 : gmap string pyobj :=
  <["tx_count" := PInt 100]> (
  <["tx_freq_per_day" := PFloat (Fin 100)]> (
  <["repeated_ratio" := PFloat (Fin (99 # 100))]> (
  <["hour_entropy" := PFloat (Fin (3 # 2))]> ∅))).

(** An ordinary wallet: some transactions, spread over days and hours. *)
Definition quiet_wallet : gmap string pyobj :=
  <["tx_count" := PInt 3]> (
  <["tx_freq_per_day" := PInt 50]> (
  <["repeated_ratio" := PFloat lit_0_6]> (
  <["hour_entropy" := PFloat (Fin 1)]> ∅))).

(** A dictionary that only has the repeated ratio. *)
Definition only_ratio : gmap string pyobj :=
  {[ "repeated_ratio" := PFloat (Fin (9 # 10)) ]}.

(** The HTTP layer raises what [except Exception] catches: the errors of
    [requests] and of the JSON decoder all derive from [Exception]. *)
Definition http_ordinary (http : http_layer) : Prop :=
  forall req,
    ordinary (http req)
    /\ forall r, http req = Ok r -> ordinary (json r).

(** The request [fetch_transactions] sends. *)
Definition fetch_request (address api_key startblock endblock sort : pyobj)
  : request :=
  mkRequest ETHERSCAN_BASE
            (fetch_params address api_key startblock endblock sort) 20.

(** A field of a decoded body, when the body is an object that has it. *)
Definition body_field (data : pyobj) (k : string) : option pyobj :=
  match data with
  | PDict d => d !! k
  | _ => None
  end.

(** A body of the shape the API documents: an object with a string status
    and, under status ["1"], the list of transactions as result. *)
Definition well_formed_body (data : pyobj) : Prop :=
  exists s, body_field data "status" = Some (PStr s)
            /\ (s = "1" -> exists txs, body_field data "result" = Some (PList txs)).

(** The failures of the HTTP layer the specification lists: a network error,
    a status that is not 2xx, a body that is not JSON or is malformed, an
    error reported by the API (authentication, rate limit). *)
Inductive http_failure : result response -> Prop :=
  | failure_network e : http_failure (Raise e)
  | failure_status r :
      ~ (200 <= status_code r < 300)%Z -> http_failure (Ok r)
  | failure_not_json r e :
      json r = Raise e -> http_failure (Ok r)
  | failure_malformed r data :
      json r = Ok data -> ~ well_formed_body data -> http_failure (Ok r)
  | failure_api r data :
      json r = Ok data -> body_field data "status" <> Some (PStr "1") ->
      http_failure (Ok r).

(** An answer with status 300 that carries a transaction list. *)
Definition multiple_choices_http : http_layer := fun _ =>
  Ok (mkResponse 300
        (Ok (PDict (<["status" := PStr "1"]> (
                    <["message" := PStr "OK"]> (
                    <["result" := PList [PDict {[ "hash" := PStr "0xabc" ]}]]> ∅)))))).

(** What the API answers for an address without transactions, and for a
    wrong key. *)
Definition no_transactions_http : http_layer := fun _ =>
  Ok (mkResponse 200
        (Ok (PDict (<["status" := PStr "0"]> (
                    <["message" := PStr "No transactions found"]> (
                    <["result" := PList []]> ∅)))))).

Definition invalid_key_http : http_layer := fun _ =>
  Ok (mkResponse 200
        (Ok (PDict (<["status" := PStr "0"]> (
                    <["message" := PStr "NOTOK"]> (
                    <["result" := PStr "Invalid API Key"]> ∅)))))).

(** A network that is down. *)
Definition offline_http : http_layer := fun _ =>
  Raise (mkExn ConnectionError "Max retries exceeded").

(** [s'] is [s] with the events [evs] added to the page; the model file and
    the cache are the same. *)
Definition extends {C} (s s' : state C) (evs : list (ui_event C)) : Prop :=
  ui s' = ui s ++ evs /\ model_file s' = model_file s /\ cache s' = cache s.

(** A small instance of the core: the model is a fixed prediction outcome,
    a table is the list of its rows. *)
Definition toy_core (prediction : result pyobj) : Core :=
  mkCore unit (list pyobj)
    (fun _ => Raise (mkExn ValueError "unsupported pickle protocol"))
    (fun _ _ => prediction)
    (fun txs => match txs with
                | PList rows => Ok rows
                | _ => Raise (mkExn TypeError "not a list of records")
                end)
    (fun _ _ => Ok scenario_2)
    (fun _ => Ok "model").

(** A standard output that takes every text. *)
Definition utf8_console : console := fun _ _ => None.

(** A draw from a table kept as the list of its rows: the first row, and the
    error of pandas on a table without rows. *)
Definition sample_first_row (df : list pyobj) : result (list pyobj) :=
  match df with
  | [] => Raise (mkExn ValueError
                   "a must be greater than 0 unless no samples are taken")
  | row :: _ => Ok [row]
  end.

Definition toy_env (prediction : result pyobj) (net : http_layer)
  : Env (toy_core prediction) :=
  mkEnv (toy_core prediction) net utf8_console false
    (Raise (mkExn OSError "No such file or directory"))
    sample_first_row [] (fun df => bool_decide (df = [])) take
    (fun _ => Ok tt)
    (fun _ => Ok "0.500")
    exn_msg.

Definition good_prediction : result pyobj :=
  Ok (PDict (<["score" := PFloat (Fin (1 # 2))]> (
             <["label" := PStr "normal"]> (
             <["raw" := PFloat (Fin (1 # 10))]> ∅)))).

Definition bad_prediction : result pyobj :=
  Raise (mkExn RuntimeError "model is not fitted").

Definition fresh_state (C : Core) (file : option string) : state C :=
  mkState [] [] file None.

Definition load_failure_status (e : exn) : string :=
  "Failed to load (" +:+ exn_msg e +:+ ")".

(** A run on a corrupt model file: no key, a wallet, Analyze pressed. *)
Definition analyze_widgets : widgets :=
  mkWidgets "" "0xabc" false false None false true.

(** The features of an empty transaction set. *)
Definition default_features : gmap string pyobj :=
  <["tx_count" := PInt 0]> (
  <["tx_freq_per_day" := PFloat (Fin 0)]> (
  <["repeated_ratio" := PFloat (Fin 0)]> (
  <["hour_entropy" := PFloat (Fin 10)]> ∅))).

(** A fitted model over the schema: a forest of two trees. *)
Definition toy_model : FittedModel :=
  mkFitted SCHEMA [(0, 1); (0, 1); (0, 1); (0, 1)]%Q
    [ ISplit 0 50%Q (ILeaf 12)
        (ISplit 2 (1 # 2)%Q (ILeaf 3) (ILeaf 1));
      ILeaf 16 ].

Definition toy_vector : gmap string Q :=
  <["tx_count" := 100%Q]> (
  <["tx_freq_per_day" := 100%Q]> (
  <["repeated_ratio" := (99 # 100)%Q]> (
  <["hour_entropy" := (3 # 2)%Q]> ∅))).

(** ** Further sample inputs *)

(** Scenario 2 with a column the rules do not know, holding a string. *)
Definition scenario_2_annotated : gmap string pyobj :=
  <["source" := PStr "etherscan"]> scenario_2.

(** A vector whose four values are NaN. *)
Definition all_nan : gmap string pyobj :=
  <["tx_count" := PFloat NaN]> (
  <["tx_freq_per_day" := PFloat NaN]> (
  <["repeated_ratio" := PFloat NaN]> (
  <["hour_entropy" := PFloat NaN]> ∅))).

(** A standard output that can only encode ASCII. *)
Definition is_ascii (s : string) : bool :=
  forallb (fun c => (Ascii.nat_of_ascii c <? 128)%nat) (String.list_ascii_of_string s).

Definition ascii_console : console := fun _ piece =>
  if is_ascii piece then None else Some CannotEncode.

(** A standard output that, after [written], takes the pieces of [pieces]
    one after the other. *)
Fixpoint takes_after (out : console) (written pieces : list string) : Prop :=
  match pieces with
  | [] => True
  | piece :: rest =>
      out written piece = None /\ takes_after out (written ++ [piece]) rest
  end.

Definition takes (out : console) (pieces : list string) : Prop :=
  takes_after out [] pieces.

(** An answer the [try] block gets through: a response outside the 4xx and
    5xx codes whose body decodes to an object. *)
Definition clean_answer (o : result response) : Prop :=
  exists r d, o = Ok r /\ ~ (400 <= status_code r < 600)%Z /\ json r = Ok (PDict d).

(** A user who interrupts the request. *)
Definition interrupted_http : http_layer := fun _ =>
  Raise (mkExn KeyboardInterrupt "").

(** An HTTP layer that answers [o] to the requests that allow it 20 seconds
    and is offline for every other request. *)
Definition answers_in_20 (o : result response) : http_layer := fun req =>
  if bool_decide (req_timeout req = 20%Z) then o
  else Raise (mkExn ConnectionError "Max retries exceeded").

(** The state with more events on the page. *)
Definition add_events {C} (s : state C) (evs : list (ui_event C)) : state C :=
  mkState (ui s ++ evs) (stdout s) (model_file s) (cache s).

(** The functions of the core and of the environment raise what
    [except Exception] catches. *)
Definition env_ordinary (C : Core) (E : Env C) : Prop :=
  (forall b, ordinary (model_load C b))
  /\ (forall m feat, ordinary (predict_score C m feat))
  /\ (forall txs, ordinary (txs_to_dataframe C txs))
  /\ (forall df, ordinary (train_and_persist_model C df))
  /\ http_ordinary (http E)
  /\ ordinary (read_csv_sim E)
  /\ (forall data, ordinary (write_bytes E data))
  /\ (forall v, ordinary (format_3f E v)).


(** The widgets with another state of the Reload button. *)
Definition with_reload (W : widgets) (clicked : bool) : widgets :=
  mkWidgets (etherscan_key W) (wallet W) (use_sample W) clicked
            (uploaded W) (train_clicked W) (analyze_clicked W).

(** The environment with another HTTP layer. *)
Definition with_http {C} (E : Env C) (net : http_layer) : Env C :=
  mkEnv C net (stdout_stream E) (sim_features_exists E) (read_csv_sim E)
        (df_sample_T E)
        (df_new E) (df_empty E) (df_head E) (write_bytes E) (format_3f E)
        (format_exc E).

(** A core whose model is the bytes it was loaded from; the bytes "corrupt"
    do not load. *)
Definition file_core : Core :=
  mkCore string (list pyobj)
    (fun b => if bool_decide (b = "corrupt")
              then Raise (mkExn ValueError "unsupported pickle protocol")
              else Ok b)
    (fun _ _ => good_prediction)
    (fun txs => match txs with
                | PList rows => Ok rows
                | _ => Raise (mkExn TypeError "not a list of records")
                end)
    (fun _ _ => Ok scenario_2)
    (fun _ => Ok "trained").

Definition file_env (net : http_layer) : Env file_core :=
  mkEnv file_core net utf8_console true (Ok [])
    sample_first_row [] (fun df => bool_decide (df = [])) take
    (fun _ => Ok tt)
    (fun _ => Ok "0.500")
    exn_msg.

(** [s'] shows the events [evs] after the page of [s]; none of them is a
    score, and nothing was printed. *)
Definition quiet {C} (s s' : state C) (evs : list (ui_event C)) : Prop :=
  ui s' = ui s ++ evs /\ no_metric evs /\ stdout s' = stdout s.

(** An environment whose CSV of simulated features exists and cannot be
    read. *)
Definition unreadable_csv_env (net : http_layer) : Env file_core :=
  mkEnv file_core net utf8_console true
    (Raise (mkExn ValueError "No columns to parse from file"))
    sample_first_row [] (fun df => bool_decide (df = [])) take
    (fun _ => Ok tt)
    (fun _ => Ok "0.500")
    exn_msg.

(** The sample of simulated features is asked for. *)
Definition sample_widgets : widgets :=
  mkWidgets "" "" true false None false true.

(** The same, with the Train button pressed in the same run. *)
Definition sample_train_widgets : widgets :=
  mkWidgets "" "" true false None true true.




(** Two states that differ in their pages only. *)
Definition same_store {C} (s t : state C) : Prop :=
  stdout s = stdout t /\ model_file s = model_file t /\ cache s = cache t.

(** A run in which a model is uploaded and nothing else is pressed. *)
Definition upload_widgets (data : string) : widgets :=
  mkWidgets "" "" false false (Some data) false false.

(** A session that has the model "v1" in its cache and on disk. *)
Definition model_v1 : Model file_core := "v1".

Definition cached_state : state file_core :=
  mkState [] [] (Some "v1") (Some model_v1).

(** A step that leaves the model file as it is, however it ends. *)
Definition keeps_file {C A} (m : M C A) : Prop :=
  forall s, model_file (fst (m s)) = model_file s.

(** A session without a cached model, with the model "v1" on disk. *)
Definition stored_state : state file_core :=
  mkState [] [] (Some "v1") None.

(** The request of the script: the wallet and the key of the widgets, the
    other arguments at their defaults. *)
Definition script_request (W : widgets) : request :=
  fetch_request (PStr (wallet W)) (PStr (etherscan_key W))
    (PInt 0) (PInt 99999999) (PStr "asc").

(** A wallet is analysed with a key. *)
Definition keyed_widgets : widgets :=
  mkWidgets "KEY" "0xabc" false false None false true.

Definition is_error {C} (ev : ui_event C) : bool :=
  match ev with StError _ => true | _ => false end.

(** A prediction that is complete for the page: it returned, it has a score
    that formats, a label and a raw score. *)
Definition scored (C : Core) (E : Env C) (m : Model C)
    (feat : gmap string pyobj) (shown : string) : Prop :=
  exists res v,
    predict_score C m feat = Ok res
    /\ py_getitem res "score" = Ok v
    /\ format_3f E v = Ok shown.

Definition complete_prediction (C : Core) (E : Env C) (m : Model C)
    (feat : gmap string pyobj) : Prop :=
  exists res shown l r,
    scored C E m feat shown
    /\ predict_score C m feat = Ok res
    /\ py_getitem res "label" = Ok l
    /\ py_getitem res "raw" = Ok r.

(** A prediction without a label. *)
Definition unlabelled_prediction : result pyobj :=
  Ok (PDict (<["score" := PFloat (Fin (1 # 2))]> (
             <["raw" := PFloat (Fin (1 # 10))]> ∅))).



(** A session that has a model in its cache and no model file any more. *)
Definition orphaned_cache_state : state file_core :=
  mkState [] [] None (Some model_v1).

(** Reload is pressed, nothing else. *)
Definition reload_widgets : widgets :=
  mkWidgets "" "" false true None false false.

(** Training is asked for, nothing else. *)
Definition train_widgets : widgets :=
  mkWidgets "" "" false false None true false.

(** A core whose training stores bytes that do not load. *)
Definition bad_trainer_core : Core :=
  mkCore string (list pyobj)
    (model_load file_core) (predict_score file_core)
    (txs_to_dataframe file_core) (extract_wallet_features file_core)
    (fun _ => Ok "corrupt").

Definition bad_trainer_env (net : http_layer) : Env bad_trainer_core :=
  mkEnv bad_trainer_core net utf8_console true (Ok [])
    sample_first_row [] (fun df => bool_decide (df = [])) take
    (fun _ => Ok tt)
    (fun _ => Ok "0.500")
    exn_msg.

Definition bad_trainer_state : state bad_trainer_core :=
  mkState [] [] (Some "v1") None.

(** * Properties *)

(** ** Numbers *)

Lemma Qltb_lt (a b : Q) : Qltb a b = true <-> (a < b)%Q.
Proof.
  unfold Qltb. rewrite negb_true_iff, <- not_true_iff_false, Qle_bool_iff.
  split; [apply Qnot_le_lt | apply Qlt_not_le].
Qed.

Lemma num_lt_Fin (a b : Q) : num_lt (Fin a) (Fin b) = true <-> (a < b)%Q.
Proof. apply Qltb_lt. Qed.

Lemma num_gt_Fin (a b : Q) : num_gt (Fin a) (Fin b) = true <-> (b < a)%Q.
Proof. apply Qltb_lt. Qed.

Lemma num_lt_NaN_l (y : number) : num_lt NaN y = false.
Proof. reflexivity. Qed.

Lemma num_lt_NaN_r (x : number) : num_lt x NaN = false.
Proof. by destruct x as [|[]|]. Qed.

Lemma num_ge_not_lt (x y : number) : num_ge x y = true -> num_lt x y = false.
Proof.
  unfold num_ge.
  destruct x as [|[]|a], y as [|[]|b]; simpl; try done.
  unfold Qltb. by intros ->.
Qed.

Lemma num_le_not_gt (x y : number) : num_le x y = true -> num_gt x y = false.
Proof.
  unfold num_gt.
  destruct x as [|[]|a], y as [|[]|b]; simpl; try done.
  unfold Qltb. by intros ->.
Qed.

(** On the values a double can take, exceeding the literal [0.6] is exceeding
    the decimal 0.6. *)
Lemma gt_lit_0_6_decimal (q : Q) :
  on_binary64_grid q ->
  num_gt (Fin q) lit_0_6 = true <-> (3 # 5 < q)%Q.
Proof.
  intros Hq. unfold lit_0_6. rewrite num_gt_Fin.
  destruct Hq as [[k Hk] | Hlt].
  - rewrite Hk. unfold Qlt; simpl. lia.
  - split; intros H; exfalso.
    + apply (Qlt_irrefl q). eapply Qlt_trans; [exact Hlt|].
      eapply Qlt_trans; [|exact H]. reflexivity.
    + apply (Qlt_irrefl q). eapply Qlt_trans; [exact Hlt|].
      eapply Qlt_trans; [|exact H]. reflexivity.
Qed.

(** ** The heuristic rule layer *)

Lemma feature_vector_number (feat : gmap string pyobj) (k : string) (d : Z) :
  is_feature_vector feat -> is_Some (feature_number feat k d).
Proof.
  intros Hfv. unfold feature_number, dict_get.
  destruct (feat !! k) as [v|] eqn:Hk; simpl.
  - exact (Hfv k v Hk).
  - by eexists.
Qed.

Lemma feature_value_number (feat : gmap string pyobj) (k : string) (x : number) :
  feature_number feat k (feature_default k) = Some x -> feature_value feat k = x.
Proof. unfold feature_value. by intros ->. Qed.

(** The code and the table agree as soon as the four values read are
    numbers. *)
Lemma heuristic_signals_evaluate (feat : gmap string pyobj) (x1 x2 x3 x4 : number) :
  feature_number feat "tx_count" 0 = Some x1 ->
  feature_number feat "tx_freq_per_day" 0 = Some x2 ->
  feature_number feat "repeated_ratio" 0 = Some x3 ->
  feature_number feat "hour_entropy" 10 = Some x4 ->
  heuristic_signals feat = Ok (evaluate code_table NO_FLAGS (feature_value feat))
  /\ feature_value feat "tx_count" = x1
  /\ feature_value feat "tx_freq_per_day" = x2
  /\ feature_value feat "repeated_ratio" = x3
  /\ feature_value feat "hour_entropy" = x4.
Proof.
  intros H1 H2 H3 H4.
  assert (V1 : feature_value feat "tx_count" = x1) by by apply feature_value_number.
  assert (V2 : feature_value feat "tx_freq_per_day" = x2) by by apply feature_value_number.
  assert (V3 : feature_value feat "repeated_ratio" = x3) by by apply feature_value_number.
  assert (V4 : feature_value feat "hour_entropy" = x4) by by apply feature_value_number.
  split; [|done].
  unfold evaluate, code_table, rule_table.
  cbn -[num_lt num_gt feature_value].
  rewrite V1, V2, V3, V4.
  unfold heuristic_signals, py_lt, py_gt.
  unfold feature_number in H1, H2, H3, H4. rewrite H1, H2, H3, H4.
  cbn -[num_lt num_gt].
  by destruct (num_lt x1 lit_3), (num_gt x2 lit_50), (num_gt x3 lit_0_6),
       (num_lt x4 lit_1_0).
Qed.

Ltac solve_sublist :=
  repeat first [ apply sublist_nil | apply sublist_skip | apply sublist_cons ].

(** What the table yields with the texts of [app.py]: a flag is in the output
    exactly when its rule holds, and the output keeps the order of the
    table. *)
Lemma evaluate_code_table (v : string -> number) :
  let out := evaluate code_table NO_FLAGS v in
  (FLAG_FEW_TX ∈ out <-> num_lt (v "tx_count") lit_3 = true)
  /\ (FLAG_HIGH_FREQ ∈ out <-> num_gt (v "tx_freq_per_day") lit_50 = true)
  /\ (FLAG_REPEATED ∈ out <-> num_gt (v "repeated_ratio") lit_0_6 = true)
  /\ (FLAG_LOW_ENTROPY ∈ out <-> num_lt (v "hour_entropy") lit_1_0 = true)
  /\ (out = [NO_FLAGS] \/ (out <> [] /\ sublist out ALL_FLAGS)).
Proof.
  unfold evaluate, code_table, rule_table.
  cbn -[num_lt num_gt].
  destruct (num_lt (v "tx_count") lit_3), (num_gt (v "tx_freq_per_day") lit_50),
    (num_gt (v "repeated_ratio") lit_0_6), (num_lt (v "hour_entropy") lit_1_0);
    cbn;
    (split; [compute_done|]); (split; [compute_done|]);
    (split; [compute_done|]); (split; [compute_done|]);
    first [ by left | right; split; [done | unfold ALL_FLAGS; solve_sublist] ].
Qed.

Lemma heuristic_signals_feature_vector (feat : gmap string pyobj) :
  is_feature_vector feat ->
  heuristic_signals feat = Ok (evaluate code_table NO_FLAGS (feature_value feat)).
Proof.
  intros Hfv.
  destruct (feature_vector_number feat "tx_count" 0 Hfv) as [x1 H1].
  destruct (feature_vector_number feat "tx_freq_per_day" 0 Hfv) as [x2 H2].
  destruct (feature_vector_number feat "repeated_ratio" 0 Hfv) as [x3 H3].
  destruct (feature_vector_number feat "hour_entropy" 10 Hfv) as [x4 H4].
  by destruct (heuristic_signals_evaluate feat x1 x2 x3 x4) as [-> _].
Qed.

(** A feature whose value compares with a literal is a number. *)
Lemma feature_value_not_NaN (feat : gmap string pyobj) (k : string) :
  feature_value feat k <> NaN ->
  feature_number feat k (feature_default k) = Some (feature_value feat k).
Proof.
  unfold feature_value.
  by destruct (feature_number feat k (feature_default k)).
Qed.

(** When the four values are numbers and no rule holds, the single no-flags
    entry is produced. *)
Lemma no_rule_holds_no_flags (feat : gmap string pyobj) (x1 x2 x3 x4 : number) :
  feature_number feat "tx_count" 0 = Some x1 ->
  feature_number feat "tx_freq_per_day" 0 = Some x2 ->
  feature_number feat "repeated_ratio" 0 = Some x3 ->
  feature_number feat "hour_entropy" 10 = Some x4 ->
  num_lt x1 lit_3 = false ->
  num_gt x2 lit_50 = false ->
  num_gt x3 lit_0_6 = false ->
  num_lt x4 lit_1_0 = false ->
  heuristic_signals feat = Ok [NO_FLAGS].
Proof.
  intros H1 H2 H3 H4 C1 C2 C3 C4.
  destruct (heuristic_signals_evaluate feat x1 x2 x3 x4) as (-> & V1 & V2 & V3 & V4);
    try done.
  unfold evaluate, code_table, rule_table.
  cbn -[num_lt num_gt feature_value].
  by rewrite V1, V2, V3, V4, C1, C2, C3, C4.
Qed.

(** C1 (amended): on every feature vector the rule layer evaluates exactly the
    four rules of the table, each firing iff its threshold condition holds
    (tx_count < 3, tx_freq_per_day > 50, repeated_ratio > 0.6,
    hour_entropy < 1.0), producing for each fired rule the flag text of
    [app.py], and the flags appear in the fixed order of the table. *)
Theorem heuristic_rules_in_table_order (feat : gmap string pyobj) :
  is_feature_vector feat ->
  exists out : list string,
    heuristic_signals feat = Ok out
    /\ out = evaluate code_table NO_FLAGS (feature_value feat)
    /\ (FLAG_FEW_TX ∈ out <->
          num_lt (feature_value feat "tx_count") lit_3 = true)
    /\ (FLAG_HIGH_FREQ ∈ out <->
          num_gt (feature_value feat "tx_freq_per_day") lit_50 = true)
    /\ (FLAG_REPEATED ∈ out <->
          num_gt (feature_value feat "repeated_ratio") lit_0_6 = true)
    /\ (FLAG_LOW_ENTROPY ∈ out <->
          num_lt (feature_value feat "hour_entropy") lit_1_0 = true)
    /\ (out = [NO_FLAGS] \/ (out <> [] /\ sublist out ALL_FLAGS)).
Proof.
  intros Hfv. eexists. split; [by apply heuristic_signals_feature_vector|].
  split; [done|]. apply evaluate_code_table.
Qed.

Lemma scenario_2_feature_vector : is_feature_vector scenario_2.
Proof.
  unfold scenario_2.
  repeat (apply map_Forall_insert_2; [by eexists|]).
  apply map_Forall_empty.
Qed.

Lemma heuristic_rules_in_table_order_witness :
  is_feature_vector scenario_2
  /\ exists out : list string,
       heuristic_signals scenario_2 = Ok out
       /\ out = evaluate code_table NO_FLAGS (feature_value scenario_2)
       /\ (FLAG_FEW_TX ∈ out <->
             num_lt (feature_value scenario_2 "tx_count") lit_3 = true)
       /\ (FLAG_HIGH_FREQ ∈ out <->
             num_gt (feature_value scenario_2 "tx_freq_per_day") lit_50 = true)
       /\ (FLAG_REPEATED ∈ out <->
             num_gt (feature_value scenario_2 "repeated_ratio") lit_0_6 = true)
       /\ (FLAG_LOW_ENTROPY ∈ out <->
             num_lt (feature_value scenario_2 "hour_entropy") lit_1_0 = true)
       /\ (out = [NO_FLAGS] \/ (out <> [] /\ sublist out ALL_FLAGS)).
Proof.
  split; [exact scenario_2_feature_vector|].
  apply (heuristic_rules_in_table_order scenario_2).
  exact scenario_2_feature_vector.
Defined.

Example scenario_2_flags :
  heuristic_signals scenario_2 = Ok [FLAG_HIGH_FREQ; FLAG_REPEATED].
Proof. reflexivity. Qed.

(** C1, as stated, fails: with the flag texts of the specification's table
    the output differs from what the code produces, already on the empty
    feature dictionary, where only the first rule fires. *)
Lemma spec_table_texts_not_produced :
  is_feature_vector ∅
  /\ heuristic_signals ∅ = Ok ["Very few transactions — new or dormant account"]
  /\ evaluate spec_table NO_FLAGS (feature_value ∅)
     = ["very few transactions — new/dormant account"]
  /\ heuristic_signals ∅ <> Ok (evaluate spec_table NO_FLAGS (feature_value ∅)).
Proof.
  split; [apply map_Forall_empty|].
  split; [reflexivity|]. split; [reflexivity|].
  vm_compute. discriminate.
Qed.

(** C2: on a feature vector on which none of the four conditions holds
    (tx_count >= 3, tx_freq_per_day <= 50, repeated_ratio <= 0.6,
    hour_entropy >= 1.0) the output is exactly one entry, the no-flags
    entry. *)
Theorem no_condition_single_no_flags_entry (feat : gmap string pyobj) :
  num_ge (feature_value feat "tx_count") lit_3 = true ->
  num_le (feature_value feat "tx_freq_per_day") lit_50 = true ->
  num_le (feature_value feat "repeated_ratio") lit_0_6 = true ->
  num_ge (feature_value feat "hour_entropy") lit_1_0 = true ->
  heuristic_signals feat = Ok [NO_FLAGS].
Proof.
  intros G1 G2 G3 G4.
  apply (no_rule_holds_no_flags feat
           (feature_value feat "tx_count") (feature_value feat "tx_freq_per_day")
           (feature_value feat "repeated_ratio") (feature_value feat "hour_entropy")).
  - apply (feature_value_not_NaN feat "tx_count"). by intros E; rewrite E in G1.
  - apply (feature_value_not_NaN feat "tx_freq_per_day").
    by intros E; rewrite E in G2.
  - apply (feature_value_not_NaN feat "repeated_ratio").
    by intros E; rewrite E in G3.
  - apply (feature_value_not_NaN feat "hour_entropy").
    by intros E; rewrite E in G4.
  - by apply num_ge_not_lt.
  - by apply num_le_not_gt.
  - by apply num_le_not_gt.
  - by apply num_ge_not_lt.
Qed.

Lemma no_condition_single_no_flags_entry_witness :
  heuristic_signals quiet_wallet = Ok [NO_FLAGS].
Proof.
  apply (no_condition_single_no_flags_entry quiet_wallet); reflexivity.
Defined.

(** A dictionary without the key behaves as one that has the default under
    it. *)
Lemma dict_get_insert_default (feat : gmap string pyobj) (k k' : string)
    (d d' : pyobj) :
  feat !! k = None ->
  (k' = k -> d' = d) ->
  dict_get (<[k := d]> feat) k' d' = dict_get feat k' d'.
Proof.
  intros Hk Hd. unfold dict_get.
  destruct (decide (k = k')) as [<-|Hne].
  - rewrite lookup_insert_eq, Hk. simpl. symmetry. by apply Hd.
  - by rewrite lookup_insert_ne.
Qed.

Lemma heuristic_signals_insert_default (feat : gmap string pyobj) (k : string) :
  feat !! k = None ->
  heuristic_signals (<[k := PInt (feature_default k)]> feat)
  = heuristic_signals feat.
Proof.
  intros Hk. unfold heuristic_signals.
  rewrite !(dict_get_insert_default feat k); try done;
    by intros <-.
Qed.

(** C9: the rule layer is total on partial feature dictionaries: it never
    raises; a missing tx_count, tx_freq_per_day or repeated_ratio counts as
    0 and a missing hour_entropy as 10; the empty dictionary yields exactly
    the single very-few-transactions flag. *)
Theorem heuristic_signals_total_on_partial (feat : gmap string pyobj) :
  is_feature_vector feat ->
  returns (heuristic_signals feat)
  /\ (feat !! "tx_count" = None ->
      heuristic_signals (<["tx_count" := PInt 0]> feat) = heuristic_signals feat)
  /\ (feat !! "tx_freq_per_day" = None ->
      heuristic_signals (<["tx_freq_per_day" := PInt 0]> feat)
      = heuristic_signals feat)
  /\ (feat !! "repeated_ratio" = None ->
      heuristic_signals (<["repeated_ratio" := PInt 0]> feat)
      = heuristic_signals feat)
  /\ (feat !! "hour_entropy" = None ->
      heuristic_signals (<["hour_entropy" := PInt 10]> feat)
      = heuristic_signals feat)
  /\ heuristic_signals ∅ = Ok [FLAG_FEW_TX].
Proof.
  intros Hfv. split.
  - eexists. by apply heuristic_signals_feature_vector.
  - repeat split; try apply (heuristic_signals_insert_default feat).
Qed.

Lemma heuristic_signals_total_on_partial_witness :
  is_feature_vector only_ratio
  /\ heuristic_signals only_ratio = Ok [FLAG_FEW_TX; FLAG_REPEATED]
  /\ returns (heuristic_signals only_ratio).
Proof.
  assert (H : is_feature_vector only_ratio).
  { apply map_Forall_singleton. by eexists. }
  split; [exact H|]. split; [reflexivity|].
  exact (proj1 (heuristic_signals_total_on_partial only_ratio H)).
Defined.

(** A value that is not a number makes the comparison, and so the rule layer,
    raise. *)
Example heuristic_signals_type_error :
  heuristic_signals {[ "tx_count" := PStr "many" ]} = Raise type_error.
Proof. reflexivity. Qed.

(** ** The Etherscan wrapper *)

Lemma fetch_transactions_body (http : http_layer) (out : console)
    (address api_key startblock endblock sort : pyobj) :
  fetch_transactions http out address api_key startblock endblock sort
  = match fetch_body http
            (fetch_params address api_key startblock endblock sort) with
    | Ok v => ([], Ok v)
    | Raise e =>
        if is_Exception (exn_cls e)
        then (fst (write_all out [] (warning_pieces e)),
              _ ← snd (write_all out [] (warning_pieces e)); Ok (PList []))
        else ([], Raise e)
    end.
Proof. reflexivity. Qed.

(** An output that takes every piece gets them all written. *)
Lemma write_all_takes_after (out : console) (written pieces : list string) :
  takes_after out written pieces ->
  write_all out written pieces = (pieces, Ok tt).
Proof.
  revert written. induction pieces as [|piece rest IH]; intros written; [done|].
  intros [Hpiece Hrest]. simpl. by rewrite Hpiece, (IH _ Hrest).
Qed.

Lemma write_all_takes (out : console) (pieces : list string) :
  takes out pieces -> write_all out [] pieces = (pieces, Ok tt).
Proof. apply write_all_takes_after. Qed.

(** What a write raises is an error of the stream, which [except Exception]
    catches. *)
Lemma write_all_ordinary (out : console) (written pieces : list string) :
  ordinary (snd (write_all out written pieces)).
Proof.
  revert written.
  induction pieces as [|piece rest IH]; intros written e; [done|].
  simpl. destruct (out written piece) as [[]|]; simpl.
  - by intros [= <-].
  - by intros [= <-].
  - by intros [= <-].
  - apply IH.
Qed.

(** The body of the [try] block raises nothing that escapes the handler. *)
Lemma fetch_body_ordinary (http : http_layer) (params : gmap string pyobj) :
  http_ordinary http -> ordinary (fetch_body http params).
Proof.
  intros Hord e. unfold fetch_body.
  destruct (Hord (mkRequest ETHERSCAN_BASE params 20)) as [Hreq Hjson].
  destruct (http _) as [r|e1] eqn:Hr; simpl.
  - unfold raise_for_status. case_bool_decide; simpl; [by intros [= <-]|].
    destruct (json r) as [data|e2] eqn:Hd; simpl.
    + destruct data; simpl; try by intros [= <-].
      case_match; [done|]. done.
    + intros [= <-]. by apply (Hjson r).
  - intros [= <-]. by apply Hreq.
Qed.

(** What the wrapper raises, if it raises, is what [except Exception]
    catches: the error of the [print] of its handler. *)
Lemma fetch_transactions_ordinary (http : http_layer) (out : console)
    (address api_key startblock endblock sort : pyobj) :
  http_ordinary http ->
  ordinary (snd (fetch_transactions http out address api_key startblock
                   endblock sort)).
Proof.
  intros Hord. rewrite fetch_transactions_body.
  pose proof (fetch_body_ordinary http
                (fetch_params address api_key startblock endblock sort) Hord) as H.
  destruct (fetch_body _ _) as [v|e]; [done|].
  rewrite (H e eq_refl).
  generalize (write_all_ordinary out [] (warning_pieces e)).
  generalize (write_all out [] (warning_pieces e)).
  intros [written [[]|e']] Hw; simpl in *.
  - by intros e' [=].
  - intros e'' [= <-]. by apply Hw.
Qed.

(** When the handler catches what the body raises and its warning can be
    written, the wrapper returns. *)
Lemma fetch_transactions_value (http : http_layer) (out : console)
    (address api_key startblock endblock sort : pyobj) :
  http_ordinary http ->
  (forall e, takes out (warning_pieces e)) ->
  snd (fetch_transactions http out address api_key startblock endblock sort)
  = Ok (match fetch_body http
                (fetch_params address api_key startblock endblock sort) with
        | Ok v => v
        | Raise _ => PList []
        end).
Proof.
  intros Hord Hout. rewrite fetch_transactions_body.
  pose proof (fetch_body_ordinary http
                (fetch_params address api_key startblock endblock sort) Hord) as H.
  destruct (fetch_body _ _) as [v|e]; [done|].
  by rewrite (H e eq_refl), (write_all_takes out _ (Hout e)).
Qed.

(** C3 (amended): whatever the arguments and whatever the HTTP layer does,
    as long as the warning of the handler can be written to the standard
    output, [fetch_transactions] does not raise; it returns the empty
    sequence on a network error, on a 4xx or 5xx status, on a body that is
    not JSON, on a JSON body that is not an object, and on an object whose
    status is not the string ["1"] or that has no result; on a status ["1"]
    with a list as result, outside the 4xx and 5xx codes, it returns the
    list. *)
Theorem fetch_transactions_never_raises (http : http_layer) (out : console)
    (address api_key startblock endblock sort : pyobj) :
  http_ordinary http ->
  (forall e, takes out (warning_pieces e)) ->
  let answer := http (fetch_request address api_key startblock endblock sort) in
  let fetched :=
    snd (fetch_transactions http out address api_key startblock endblock sort) in
  returns fetched
  /\ (raises answer -> fetched = Ok (PList []))
  /\ (forall r, answer = Ok r ->
        (400 <= status_code r < 600)%Z -> fetched = Ok (PList []))
  /\ (forall r, answer = Ok r -> raises (json r) -> fetched = Ok (PList []))
  /\ (forall r data, answer = Ok r -> json r = Ok data ->
        (forall d, data <> PDict d) -> fetched = Ok (PList []))
  /\ (forall r data, answer = Ok r -> json r = Ok data ->
        body_field data "status" <> Some (PStr "1") -> fetched = Ok (PList []))
  /\ (forall r data, answer = Ok r -> json r = Ok data ->
        body_field data "result" = None -> fetched = Ok (PList []))
  /\ (forall r data txs, answer = Ok r -> ~ (400 <= status_code r < 600)%Z ->
        json r = Ok data ->
        body_field data "status" = Some (PStr "1") ->
        body_field data "result" = Some (PList txs) ->
        fetched = Ok (PList txs)).
Proof.
  intros Hord Hout answer fetched. subst answer fetched.
  rewrite fetch_transactions_value by done.
  unfold fetch_request, fetch_body.
  set (req := mkRequest _ _ _).
  split; [by eexists|].
  split; [by intros [e ->]|].
  split.
  { intros r -> Hcode. simpl. unfold raise_for_status.
    by rewrite bool_decide_eq_true_2. }
  split.
  { intros r -> [e He]. simpl. rewrite He.
    by destruct (raise_for_status r) as [[]|]. }
  split.
  { intros r data -> Hd Hnd. simpl. rewrite Hd.
    destruct (raise_for_status r) as [[]|]; [|done]. simpl.
    destruct data; try done. by destruct (Hnd d). }
  split.
  { intros r data -> Hd Hst. simpl. rewrite Hd.
    destruct (raise_for_status r) as [[]|]; [|done]. simpl.
    destruct data; try done. simpl in *. unfold dict_get.
    destruct (d !! "status") as [[]|]; simpl; try done.
    case_bool_decide; [|done]. by subst. }
  split.
  { intros r data -> Hd Hres. simpl. rewrite Hd.
    destruct (raise_for_status r) as [[]|]; [|done]. simpl.
    destruct data; try done. simpl in *. unfold dict_get.
    rewrite Hres. by destruct (py_ne_str _ _). }
  intros r data txs -> Hcode Hd Hst Hres. simpl. rewrite Hd.
  unfold raise_for_status. rewrite bool_decide_eq_false_2 by done. simpl.
  destruct data; try done. simpl in *. unfold dict_get.
  by rewrite Hst, Hres.
Qed.

Lemma constant_http_ordinary (o : result response) :
  ordinary o ->
  (forall r, o = Ok r -> ordinary (json r)) ->
  http_ordinary (fun _ => o).
Proof. intros Ho Hj req. by split. Qed.

Lemma offline_http_ordinary : http_ordinary offline_http.
Proof.
  apply constant_http_ordinary.
  - by intros e [= <-].
  - by intros r [=].
Qed.

Lemma utf8_console_takes (pieces : list string) : takes utf8_console pieces.
Proof.
  unfold takes. generalize (@nil string).
  induction pieces as [|piece rest IH]; intros written; [done|].
  split; [done | apply IH].
Qed.

Lemma fetch_transactions_never_raises_witness :
  http_ordinary offline_http
  /\ returns (snd (fetch_transactions offline_http utf8_console
                     (PStr "0x00") (PStr "KEY")
                     (PInt 0) (PInt 99999999) (PStr "asc")))
  /\ snd (fetch_transactions offline_http utf8_console
            (PStr "0x00") (PStr "KEY")
            (PInt 0) (PInt 99999999) (PStr "asc")) = Ok (PList []).
Proof.
  split; [exact offline_http_ordinary|].
  destruct (fetch_transactions_never_raises offline_http utf8_console
              (PStr "0x00") (PStr "KEY") (PInt 0) (PInt 99999999) (PStr "asc")
              offline_http_ordinary (fun e => utf8_console_takes _))
    as (Hret & Hnet & _).
  split; [exact Hret|]. apply Hnet. by eexists.
Defined.

Lemma ok_json_http_ordinary (code : Z) (data : pyobj) :
  http_ordinary (fun _ => Ok (mkResponse code (Ok data))).
Proof.
  apply constant_http_ordinary.
  - by intros e [=].
  - by intros r [= <-] e [=].
Qed.

(** C3, as stated, fails: a status that is not 2xx is among the listed
    failures, and on the status 300 the wrapper returns what the body
    carries, not the empty sequence. *)
Lemma fetch_transactions_failure_not_empty :
  let req := fetch_request (PStr "0x00") (PStr "KEY")
               (PInt 0) (PInt 99999999) (PStr "asc") in
  http_ordinary multiple_choices_http
  /\ (forall e, takes utf8_console (warning_pieces e))
  /\ http_failure (multiple_choices_http req)
  /\ snd (fetch_transactions multiple_choices_http utf8_console
            (PStr "0x00") (PStr "KEY")
            (PInt 0) (PInt 99999999) (PStr "asc"))
     = Ok (PList [PDict {[ "hash" := PStr "0xabc" ]}])
  /\ Ok (PList [PDict {[ "hash" := PStr "0xabc" ]}]) <> Ok (PList []).
Proof.
  intros req.
  split; [apply ok_json_http_ordinary|].
  split; [intros e; apply utf8_console_takes|].
  split; [|split; [reflexivity | discriminate]].
  apply failure_status. simpl. lia.
Qed.

(** C10: the wrapper returns the empty sequence whenever the status field of
    the decoded answer is not the string ["1"], or the answer has no result
    key.  When the HTTP request itself succeeded and the answer is an object
    (lines 33-36), nothing is printed either, whatever the standard output
    is, so that an API-level error gives the caller exactly what an address
    without transactions gives; on the other answers the empty sequence is
    returned by the handler, after its warning has been written. *)
Theorem fetch_transactions_empty_on_api_error (http : http_layer)
    (out : console)
    (address api_key startblock endblock sort : pyobj) (r : response)
    (data : pyobj) :
  http (fetch_request address api_key startblock endblock sort) = Ok r ->
  json r = Ok data ->
  body_field data "status" <> Some (PStr "1")
  \/ body_field data "result" = None ->
  (~ (400 <= status_code r < 600)%Z -> (exists d, data = PDict d) ->
   fetch_transactions http out address api_key startblock endblock sort
   = ([], Ok (PList []))
   /\ fetch_transactions http out address api_key startblock endblock sort
      = fetch_transactions no_transactions_http out
          address api_key startblock endblock sort)
  /\ ((forall e, takes out (warning_pieces e)) ->
      snd (fetch_transactions http out address api_key startblock endblock sort)
      = Ok (PList [])).
Proof.
  intros Hr Hd Hcase. unfold fetch_request in Hr. split.
  - intros Hcode [d ->].
    assert (H : fetch_transactions http out address api_key startblock
                  endblock sort = ([], Ok (PList []))); [|by split].
    rewrite fetch_transactions_body. unfold fetch_body.
    rewrite Hr. simpl. rewrite Hd.
    unfold raise_for_status. rewrite bool_decide_eq_false_2 by done.
    simpl in *. unfold dict_get.
    destruct Hcase as [Hst | Hres].
    + destruct (d !! "status") as [[]|]; simpl; try done.
      case_bool_decide; [|done]. by subst.
    + rewrite Hres. by destruct (py_ne_str _ _).
  - intros Hout.
    assert (Hbody : fetch_body http
                      (fetch_params address api_key startblock endblock sort)
                    = Ok (PList [])
                    \/ exists e, fetch_body http
                          (fetch_params address api_key startblock endblock sort)
                        = Raise e /\ is_Exception (exn_cls e) = true).
    { unfold fetch_body. rewrite Hr. simpl. rewrite Hd.
      unfold raise_for_status. case_bool_decide; simpl; [by right; eexists|].
      destruct data; simpl; try (by right; eexists).
      left. simpl in *. unfold dict_get.
      destruct Hcase as [Hst | Hres].
      + destruct (d !! "status") as [[]|]; simpl; try done.
        case_bool_decide; [|done]. by subst.
      + rewrite Hres. by destruct (py_ne_str _ _). }
    rewrite fetch_transactions_body.
    destruct Hbody as [-> | (e & -> & ->)]; [done|].
    by rewrite (write_all_takes out _ (Hout e)).
Qed.

Lemma fetch_transactions_empty_on_api_error_witness :
  fetch_transactions invalid_key_http ascii_console (PStr "0x00") (PStr "KEY")
    (PInt 0) (PInt 99999999) (PStr "asc") = ([], Ok (PList []))
  /\ fetch_transactions invalid_key_http ascii_console
       (PStr "0x00") (PStr "KEY") (PInt 0) (PInt 99999999) (PStr "asc")
     = fetch_transactions no_transactions_http ascii_console
         (PStr "0x00") (PStr "KEY") (PInt 0) (PInt 99999999) (PStr "asc").
Proof.
  refine (proj1 (fetch_transactions_empty_on_api_error invalid_key_http
                   ascii_console (PStr "0x00") (PStr "KEY") (PInt 0)
                   (PInt 99999999) (PStr "asc") _ _ eq_refl eq_refl _) _ _).
  - left. vm_compute. discriminate.
  - simpl. lia.
  - by eexists.
Defined.

(** Not even the standard output tells the two apart. *)
Example api_error_like_no_transactions :
  fetch_transactions invalid_key_http ascii_console (PStr "0x00") (PStr "KEY")
    (PInt 0) (PInt 99999999) (PStr "asc")
  = fetch_transactions no_transactions_http ascii_console
      (PStr "0x00") (PStr "KEY") (PInt 0) (PInt 99999999) (PStr "asc").
Proof. reflexivity. Qed.

(** ** The script *)

Lemma extends_refl {C} (s : state C) : extends s s [].
Proof. unfold extends. by rewrite app_nil_r. Qed.

Lemma extends_trans {C} (s1 s2 s3 : state C) (e1 e2 : list (ui_event C)) :
  extends s1 s2 e1 -> extends s2 s3 e2 -> extends s1 s3 (e1 ++ e2).
Proof.
  intros (U1 & F1 & K1) (U2 & F2 & K2). unfold extends.
  rewrite U2, U1, F2, F1, K2, K1. by rewrite app_assoc.
Qed.

Lemma bind_ok {C A B} (m : M C A) (k : A -> M C B) (s s' : state C) (a : A) :
  m s = (s', Ok a) -> (m ≫= k) s = k a s'.
Proof. intros H. unfold mbind, M_bind. by rewrite H. Qed.

Lemma bind_raise {C A B} (m : M C A) (k : A -> M C B) (s s' : state C) (e : exn) :
  m s = (s', Raise e) -> (m ≫= k) s = (s', Raise e).
Proof. intros H. unfold mbind, M_bind. by rewrite H. Qed.

Lemma emit_extends {C} (ev : ui_event C) (s : state C) :
  exists s', emit ev s = (s', Ok tt) /\ extends s s' [ev].
Proof. eexists. split; [reflexivity|]. by unfold extends. Qed.

(** The writes of the flags are read back by [flags_shown]. *)
Lemma flags_shown_writes {C} (flags : list string) :
  flags_shown (C := C) (flag_writes flags) = flags.
Proof.
  unfold flags_shown, flag_writes.
  induction flags as [|f flags IH]; [done|].
  simpl. f_equal. exact IH.
Qed.

Lemma flags_shown_app {C} (evs1 evs2 : list (ui_event C)) :
  flags_shown (evs1 ++ evs2) = flags_shown evs1 ++ flags_shown evs2.
Proof. apply omap_app. Qed.

(** The loop over the flags writes them one by one. *)
Lemma for_each_write {C} (flags : list string) (s : state C) :
  exists s',
    for_each flags (fun e => emit (StWrite [PStr "- "; PStr e])) s = (s', Ok tt)
    /\ extends s s' (flag_writes flags)
    /\ stdout s' = stdout s.
Proof.
  revert s. induction flags as [|f flags IH]; intros s.
  - exists s. split; [done|]. split; [apply extends_refl | done].
  - destruct (IH (mkState (ui s ++ [StWrite [PStr "- "; PStr f]])
                    (stdout s) (model_file s) (cache s))) as (s' & Hrun & Hext & Hout).
    exists s'. split; [exact Hrun|]. split; [|exact Hout].
    destruct Hext as (U & F & K). unfold extends.
    rewrite U, F, K. simpl. by rewrite <- app_assoc.
Qed.

Lemma py_getitem_ordinary (v : pyobj) (k : string) : ordinary (py_getitem v k).
Proof.
  intros e. destruct v; simpl; try by intros [= <-].
  destruct (d !! k); [done|]. by intros [= <-].
Qed.

Ltac events_done :=
  do 2 eexists; split; [reflexivity|];
  split; [unfold extends; simpl; by rewrite <- ?app_assoc|];
  by repeat split.

(** Model inference always hands over to the heuristics: whether there is a
    model or not and whether the prediction succeeds or raises, it returns,
    and what it shows is no flag. *)
Lemma score_block_events (C : Core) (E : Env C) (sg : option (Model C))
    (feat : gmap string pyobj) (s : state C) :
  (forall m, ordinary (predict_score C m feat)) ->
  (forall v, ordinary (format_3f E v)) ->
  exists s' evs,
    score_block C E sg feat s = (s', Ok tt)
    /\ extends s s' evs
    /\ stdout s' = stdout s
    /\ flags_shown evs = []
    /\ (sg = None -> evs = [StWarning NO_MODEL_WARNING]).
Proof.
  intros Hpred Hfmt. unfold score_block.
  destruct sg as [m|]; [|events_done].
  unfold try_except, mbind, M_bind, lift, emit. simpl.
  destruct (predict_score C m feat) as [res|e] eqn:Hp; simpl;
    [|rewrite (Hpred m e Hp); events_done].
  destruct (py_getitem res "score") as [sc|e] eqn:Hs; simpl;
    [|rewrite (py_getitem_ordinary _ _ e Hs); events_done].
  destruct (format_3f E sc) as [shown|e] eqn:Hf; simpl;
    [|rewrite (Hfmt sc e Hf); events_done].
  destruct (py_getitem res "label") as [lb|e] eqn:Hl; simpl;
    [|rewrite (py_getitem_ordinary _ _ e Hl); events_done].
  destruct (py_getitem res "raw") as [rw|e] eqn:Hr; simpl;
    [|rewrite (py_getitem_ordinary _ _ e Hr); events_done].
  events_done.
Qed.

Lemma heuristics_block_events (C : Core) (feat : gmap string pyobj)
    (flags : list string) (s : state C) :
  heuristic_signals feat = Ok flags ->
  exists s',
    heuristics_block C feat s = (s', Ok tt)
    /\ extends s s' (StSubheader "Heuristic signals" :: flag_writes flags)
    /\ stdout s' = stdout s.
Proof.
  intros Hflags. unfold heuristics_block.
  destruct (emit_extends (StSubheader "Heuristic signals") s) as (s1 & R1 & X1).
  rewrite (bind_ok _ _ _ _ _ R1).
  assert (R2 : lift (C := C) (heuristic_signals feat) s1 = (s1, Ok flags))
    by (unfold lift; by rewrite Hflags).
  rewrite (bind_ok _ _ _ _ _ R2).
  destruct (for_each_write flags s1) as (s2 & R3 & X3 & O3).
  exists s2. split; [exact R3|]. split.
  - exact (extends_trans _ _ _ _ _ X1 X3).
  - rewrite O3. by injection R1 as <-.
Qed.

(** The two scoring paths on one feature vector: the flags shown are the
    heuristic flags of the vector, whatever the model path did. *)
Lemma scoring_paths_flags (C : Core) (E : Env C) (sg : option (Model C))
    (feat : gmap string pyobj) (flags : list string) (s : state C) :
  heuristic_signals feat = Ok flags ->
  (forall m, ordinary (predict_score C m feat)) ->
  (forall v, ordinary (format_3f E v)) ->
  exists s' evs,
    scoring_paths C E sg feat s = (s', Ok tt)
    /\ extends s s' evs
    /\ flags_shown evs = flags.
Proof.
  intros Hflags Hpred Hfmt. unfold scoring_paths.
  destruct (score_block_events C E sg feat s Hpred Hfmt)
    as (s1 & evs1 & R1 & X1 & _ & F1 & _).
  rewrite (bind_ok _ _ _ _ _ R1).
  destruct (heuristics_block_events C feat flags s1 Hflags) as (s2 & R2 & X2 & _).
  exists s2. eexists. split; [exact R2|].
  split; [exact (extends_trans _ _ _ _ _ X1 X2)|].
  rewrite flags_shown_app, F1. simpl. apply flags_shown_writes.
Qed.

(** C4: the heuristic flags are a function of the feature vector alone; two
    runs on the same feature vector show the same flag sequence, whether a
    model is loaded or absent and whether its prediction succeeds or
    raises. *)
Theorem heuristics_independent_of_model
    (C1 C2 : Core) (E1 : Env C1) (E2 : Env C2)
    (sg1 : option (Model C1)) (sg2 : option (Model C2))
    (s1 : state C1) (s2 : state C2) (feat : gmap string pyobj) :
  is_feature_vector feat ->
  (forall m, ordinary (predict_score C1 m feat)) ->
  (forall v, ordinary (format_3f E1 v)) ->
  (forall m, ordinary (predict_score C2 m feat)) ->
  (forall v, ordinary (format_3f E2 v)) ->
  exists s1' s2' evs1 evs2 flags,
    scoring_paths C1 E1 sg1 feat s1 = (s1', Ok tt) /\ extends s1 s1' evs1
    /\ scoring_paths C2 E2 sg2 feat s2 = (s2', Ok tt) /\ extends s2 s2' evs2
    /\ heuristic_signals feat = Ok flags
    /\ flags_shown evs1 = flags
    /\ flags_shown evs2 = flags.
Proof.
  intros Hfv Hp1 Hf1 Hp2 Hf2.
  pose proof (heuristic_signals_feature_vector feat Hfv) as Hflags.
  destruct (scoring_paths_flags C1 E1 sg1 feat _ s1 Hflags Hp1 Hf1)
    as (s1' & evs1 & R1 & X1 & F1).
  destruct (scoring_paths_flags C2 E2 sg2 feat _ s2 Hflags Hp2 Hf2)
    as (s2' & evs2 & R2 & X2 & F2).
  exists s1', s2', evs1, evs2. eexists.
  repeat (split; [eassumption|]). exact F2.
Qed.

Lemma heuristics_independent_of_model_witness :
  exists s1' s2' evs1 evs2 flags,
    scoring_paths (toy_core good_prediction)
      (toy_env good_prediction offline_http) (Some tt) scenario_2
      (fresh_state _ None) = (s1', Ok tt)
    /\ extends (fresh_state _ None) s1' evs1
    /\ scoring_paths (toy_core bad_prediction)
         (toy_env bad_prediction offline_http) (Some tt) scenario_2
         (fresh_state _ None) = (s2', Ok tt)
    /\ extends (fresh_state _ None) s2' evs2
    /\ heuristic_signals scenario_2 = Ok flags
    /\ flags_shown evs1 = flags
    /\ flags_shown evs2 = flags.
Proof.
  apply (heuristics_independent_of_model
           (toy_core good_prediction) (toy_core bad_prediction)
           (toy_env good_prediction offline_http)
           (toy_env bad_prediction offline_http)).
  - exact scenario_2_feature_vector.
  - intros m e. discriminate.
  - intros v e. discriminate.
  - intros m e [= <-]. reflexivity.
  - intros v e. discriminate.
Defined.

(** With the good prediction the page has a score, with the bad one an
    error; the flags are the same. *)
Example scoring_paths_good_and_bad :
  ui (fst (scoring_paths (toy_core good_prediction)
             (toy_env good_prediction offline_http) (Some tt) scenario_2
             (fresh_state _ None)))
  = [ StMetric "Suspicion Score (0 = normal, 1 = suspicious)" "0.500";
      StWrite [PStr "Label:"; PStr "normal"];
      StWrite [PStr "Raw model score:"; PFloat (Fin (1 # 10))];
      StSubheader "Heuristic signals";
      StWrite [PStr "- "; PStr FLAG_HIGH_FREQ];
      StWrite [PStr "- "; PStr FLAG_REPEATED] ]
  /\ ui (fst (scoring_paths (toy_core bad_prediction)
                (toy_env bad_prediction offline_http) (Some tt) scenario_2
                (fresh_state _ None)))
     = [ StError "Model prediction failed: model is not fitted";
         StText "model is not fitted";
         StSubheader "Heuristic signals";
         StWrite [PStr "- "; PStr FLAG_HIGH_FREQ];
         StWrite [PStr "- "; PStr FLAG_REPEATED] ].
Proof. split; reflexivity. Qed.

(** A file that does not load leaves the cache empty, so each call of
    [load_model] fails again. *)
Lemma load_model_failure (C : Core) (s : state C) (b : string) (e : exn) :
  cache s = None -> model_file s = Some b -> model_load C b = Raise e ->
  load_model C s = (s, Raise e).
Proof. intros Hc Hf Hl. unfold load_model. by rewrite Hc, Hf, Hl. Qed.

(** The model controls when the stored model does not load and nothing is
    uploaded or trained in the run: the failure is written to the sidebar and
    [sg] stays [None]. *)
Lemma model_controls_failure (C : Core) (E : Env C) (W : widgets)
    (s : state C) (b : string) (e : exn) :
  cache s = None -> model_file s = Some b -> model_load C b = Raise e ->
  is_Exception (exn_cls e) = true ->
  uploaded W = None -> train_clicked W = false ->
  exists s1 pre,
    model_controls C E W s = (s1, Ok None)
    /\ extends s s1 pre
    /\ SidebarWrite (load_failure_status e) ∈ pre
    /\ no_metric pre.
Proof.
  intros Hc Hf Hl He Hup Htr.
  destruct s as [u o f c]. simpl in Hc, Hf. subst f c.
  unfold model_controls, initial_load, reload_block, upload_block, train_block.
  rewrite Hup, Htr.
  unfold try_except, mbind, M_bind, emit, model_path_exists, load_model, mret, M_ret.
  simpl. rewrite Hl, He. simpl.
  destruct (reload_clicked W); simpl; rewrite ?Hl, ?He; simpl.
  all: do 2 eexists; split; [reflexivity|].
  all: split; [unfold extends; simpl; by rewrite <- !app_assoc|].
  all: split; [simpl; do 2 apply list_elem_of_further; apply list_elem_of_here|].
  all: repeat constructor.
Qed.

Lemma fetch_block_events (C : Core) (E : Env C) (W : widgets) (s : state C) :
  http_ordinary (http E) ->
  exists s' txs evs,
    fetch_block C E W s = (s', Ok txs)
    /\ extends s s' evs
    /\ no_metric evs.
Proof.
  intros Hord. unfold fetch_block.
  destruct (py_truthy_str (etherscan_key W)).
  - unfold try_except, mbind, M_bind, emit, fetch_step, fetch_transactions_default.
    set (out := fun written => stdout_stream E (_ ++ written)).
    generalize (fetch_transactions_ordinary (http E) out
                  (PStr (wallet W)) (PStr (etherscan_key W))
                  (PInt 0) (PInt 99999999) (PStr "asc") Hord).
    generalize (fetch_transactions (http E) out
                  (PStr (wallet W)) (PStr (etherscan_key W))
                  (PInt 0) (PInt 99999999) (PStr "asc")).
    intros [written [txs|e]] Ho; simpl in *.
    + do 3 eexists. split; [reflexivity|].
      split; [by unfold extends|]. repeat constructor.
    + rewrite (Ho e eq_refl). simpl.
      do 3 eexists. split; [reflexivity|].
      split; [unfold extends; simpl; by rewrite <- !app_assoc|].
      repeat constructor.
  - do 3 eexists. split; [reflexivity|].
    split; [by unfold extends|]. repeat constructor.
Qed.

Lemma dataframe_block_events (C : Core) (E : Env C) (txs : pyobj) (s : state C) :
  ordinary (txs_to_dataframe C txs) ->
  exists s' df evs,
    dataframe_block C E txs s = (s', Ok df)
    /\ extends s s' evs
    /\ no_metric evs.
Proof.
  intros Hord. unfold dataframe_block, try_except, lift.
  destruct (txs_to_dataframe C txs) as [df|e] eqn:Hdf.
  - do 3 eexists. split; [reflexivity|].
    split; [apply extends_refl|]. constructor.
  - rewrite (Hord e eq_refl).
    do 3 eexists. split; [reflexivity|].
    split; [by unfold extends|]. repeat constructor.
Qed.

Lemma raw_block_events (C : Core) (E : Env C) (df : DataFrame C) (s : state C) :
  exists s' evs,
    raw_block C E df s = (s', Ok tt)
    /\ extends s s' evs
    /\ no_metric evs.
Proof.
  unfold raw_block, mbind, M_bind, emit. simpl.
  destruct (df_empty E df); simpl.
  all: do 2 eexists; split; [reflexivity|].
  all: split; [unfold extends; simpl; by rewrite <- !app_assoc|].
  all: repeat constructor.
Qed.

Lemma no_metric_app {C} (evs1 evs2 : list (ui_event C)) :
  no_metric evs1 -> no_metric evs2 -> no_metric (evs1 ++ evs2).
Proof. unfold no_metric. rewrite Forall_app. by split. Qed.

Lemma no_metric_flag_writes {C} (flags : list string) :
  no_metric (C := C) (flag_writes flags).
Proof.
  unfold no_metric, flag_writes. apply Forall_forall.
  intros ev Hev. apply list_elem_of_fmap in Hev as (f & -> & _). done.
Qed.

(** The analysis of a wallet when no model is loaded: the features are
    extracted and shown, the warning stands where the score would, the
    heuristic flags follow, and the run goes on to its end. *)
Lemma analyze_without_model (C : Core) (E : Env C) (W : widgets) (s : state C) :
  use_sample W = false -> wallet W <> "" ->
  http_ordinary (http E) ->
  (forall txs, ordinary (txs_to_dataframe C txs)) ->
  (forall df, exists feat,
      extract_wallet_features C df (wallet W) = Ok feat
      /\ is_feature_vector feat) ->
  exists s' df feat flags before after,
    analyze_block C E W None s = (s', Ok tt)
    /\ extends s s'
         (before
          ++ [StSubheader "Extracted features"; StJson feat;
              StWarning NO_MODEL_WARNING; StSubheader "Heuristic signals"]
          ++ flag_writes flags ++ after)
    /\ extract_wallet_features C df (wallet W) = Ok feat
    /\ heuristic_signals feat = Ok flags
    /\ no_metric before /\ no_metric after.
Proof.
  intros Hsample Hwallet Hhttp Hdf Hextract.
  unfold analyze_block. rewrite Hsample.
  assert (py_truthy_str (wallet W) = true) as ->.
  { unfold py_truthy_str. by rewrite bool_decide_eq_false_2. }
  simpl.
  destruct (fetch_block_events C E W s Hhttp) as (s1 & txs & ev1 & R1 & X1 & M1).
  rewrite (bind_ok _ _ _ _ _ R1).
  destruct (dataframe_block_events C E txs s1 (Hdf txs))
    as (s2 & df & ev2 & R2 & X2 & M2).
  rewrite (bind_ok _ _ _ _ _ R2).
  destruct (Hextract df) as (feat & Hfeat & Hfv).
  assert (R3 : lift (C := C) (extract_wallet_features C df (wallet W)) s2
               = (s2, Ok feat)) by (unfold lift; by rewrite Hfeat).
  rewrite (bind_ok _ _ _ _ _ R3).
  destruct (emit_extends (StSubheader "Extracted features") s2) as (s3 & R4 & X4).
  rewrite (bind_ok _ _ _ _ _ R4).
  destruct (emit_extends (StJson feat) s3) as (s4 & R5 & X5).
  rewrite (bind_ok _ _ _ _ _ R5).
  destruct (emit_extends (StWarning NO_MODEL_WARNING) s4) as (s5 & R6 & X6).
  pose proof (heuristic_signals_feature_vector feat Hfv) as Hflags.
  destruct (heuristics_block_events C feat _ s5 Hflags) as (s6 & R7 & X7 & _).
  assert (R8 : scoring_paths C E None feat s4 = (s6, Ok tt)).
  { unfold scoring_paths, score_block. by rewrite (bind_ok _ _ _ _ _ R6). }
  rewrite (bind_ok _ _ _ _ _ R8).
  destruct (raw_block_events C E df s6) as (s7 & ev7 & R9 & X9 & M9).
  exists s7, df, feat. eexists. exists (ev1 ++ ev2), ev7.
  split; [exact R9|].
  split; [|split; [exact Hfeat|split; [exact Hflags|]]].
  - pose proof (extends_trans _ _ _ _ _ X1
                  (extends_trans _ _ _ _ _ X2
                     (extends_trans _ _ _ _ _ X4
                        (extends_trans _ _ _ _ _ X5
                           (extends_trans _ _ _ _ _ X6
                              (extends_trans _ _ _ _ _ X7 X9)))))) as X.
    unfold flag_writes. simpl in X. by rewrite <- app_assoc.
  - split; [by apply no_metric_app | exact M9].
Qed.

Lemma main_area_header_events (C : Core) (E : Env C) (s : state C) :
  exists s' evs,
    main_area_header C E s = (s', Ok tt)
    /\ extends s s' evs
    /\ no_metric evs.
Proof.
  unfold main_area_header, mbind, M_bind, emit. simpl.
  destruct (sim_features_exists E); simpl.
  all: do 2 eexists; split; [reflexivity|].
  all: split; [unfold extends; simpl; by rewrite <- !app_assoc|].
  all: repeat constructor.
Qed.

(** C5: when the persisted model fails to load, the error is reported and
    the run continues without a model: the wallet analysis extracts the
    features and shows the heuristic flags, with the no-model warning where
    the suspicion score would be, and the script runs to its end. *)
Theorem load_failure_continues_without_model (C : Core) (E : Env C)
    (W : widgets) (s : state C) (b : string) (e : exn) :
  cache s = None -> model_file s = Some b -> model_load C b = Raise e ->
  is_Exception (exn_cls e) = true ->
  uploaded W = None -> train_clicked W = false ->
  analyze_clicked W = true -> use_sample W = false -> wallet W <> "" ->
  http_ordinary (http E) ->
  (forall txs, ordinary (txs_to_dataframe C txs)) ->
  (forall df, exists feat,
      extract_wallet_features C df (wallet W) = Ok feat
      /\ is_feature_vector feat) ->
  exists s' df feat flags before after,
    script C E W s = (s', Ok tt)
    /\ extends s s'
         (before
          ++ [StSubheader "Extracted features"; StJson feat;
              StWarning NO_MODEL_WARNING; StSubheader "Heuristic signals"]
          ++ flag_writes flags ++ after)
    /\ SidebarWrite (load_failure_status e) ∈ before
    /\ extract_wallet_features C df (wallet W) = Ok feat
    /\ heuristic_signals feat = Ok flags
    /\ no_metric before /\ no_metric after.
Proof.
  intros Hc Hf Hl He Hup Htr Han Hsample Hwallet Hhttp Hdf Hextract.
  unfold script.
  destruct (model_controls_failure C E W s b e Hc Hf Hl He Hup Htr)
    as (s1 & pre & R1 & X1 & Hin & M1).
  rewrite (bind_ok _ _ _ _ _ R1).
  destruct (main_area_header_events C E s1) as (s2 & hdr & R2 & X2 & M2).
  rewrite (bind_ok _ _ _ _ _ R2). rewrite Han.
  destruct (analyze_without_model C E W s2 Hsample Hwallet Hhttp Hdf Hextract)
    as (s3 & df & feat & flags & before & after & R3 & X3 & Hfeat & Hflags & M3 & M4).
  exists s3, df, feat, flags, (pre ++ hdr ++ before), after.
  split; [exact R3|].
  split; [|split; [|split; [exact Hfeat|split; [exact Hflags|]]]].
  - pose proof (extends_trans _ _ _ _ _ X1 (extends_trans _ _ _ _ _ X2 X3)) as X.
    by rewrite <- !app_assoc.
  - apply elem_of_app. by left.
  - split; [|exact M4]. by repeat apply no_metric_app.
Qed.

Lemma load_failure_continues_without_model_witness :
  exists s' df feat flags before after,
    script (toy_core good_prediction) (toy_env good_prediction offline_http)
      analyze_widgets (fresh_state _ (Some "corrupt")) = (s', Ok tt)
    /\ extends (fresh_state _ (Some "corrupt")) s'
         (before
          ++ [StSubheader "Extracted features"; StJson feat;
              StWarning NO_MODEL_WARNING; StSubheader "Heuristic signals"]
          ++ flag_writes flags ++ after)
    /\ SidebarWrite
         (load_failure_status (mkExn ValueError "unsupported pickle protocol"))
       ∈ before
    /\ extract_wallet_features (toy_core good_prediction) df "0xabc" = Ok feat
    /\ heuristic_signals feat = Ok flags
    /\ no_metric before /\ no_metric after.
Proof.
  apply (load_failure_continues_without_model
           (toy_core good_prediction) (toy_env good_prediction offline_http)
           analyze_widgets (fresh_state _ (Some "corrupt")) "corrupt"
           (mkExn ValueError "unsupported pickle protocol")).
  - reflexivity.
  - reflexivity.
  - reflexivity.
  - reflexivity.
  - reflexivity.
  - reflexivity.
  - reflexivity.
  - reflexivity.
  - discriminate.
  - exact offline_http_ordinary.
  - intros txs e. destruct txs; simpl; try discriminate; by intros [= <-].
  - intros df. exists scenario_2. split; [reflexivity|].
    exact scenario_2_feature_vector.
Defined.

(** The page of that run. *)
Example corrupt_model_page :
  script (toy_core good_prediction) (toy_env good_prediction offline_http)
    analyze_widgets (fresh_state _ (Some "corrupt"))
  = (mkState
       [ SidebarMarkdown "---";
         SidebarSubheader "Model";
         SidebarWrite "Failed to load (unsupported pickle protocol)";
         SidebarMarkdown "---";
         SidebarMarkdown "---";
         SidebarMarkdown
           "Need help? Make sure `sharkguard/core.py` and `utils/etherscan.py` are present.";
         StWrite
           [PStr "Use the sidebar to load/train/upload a model. Then enter a wallet and click Analyze."];
         StSubheader "Analyze wallet";
         StCaption "No simulated features found";
         StInfo
           "No Etherscan key provided — will not fetch on-chain transactions (empty).";
         StSubheader "Extracted features";
         StJson scenario_2;
         StWarning NO_MODEL_WARNING;
         StSubheader "Heuristic signals";
         StWrite [PStr "- "; PStr FLAG_HIGH_FREQ];
         StWrite [PStr "- "; PStr FLAG_REPEATED];
         StSubheader "Raw transactions (first 20)";
         StWrite [PStr "No transactions to show (empty)."] ]
       [] (Some "corrupt") None,
     Ok tt).
Proof. reflexivity. Qed.

(** ** The feature extractor *)

Lemma py_div_nonzero (a : Q) (n : Z) :
  n <> 0%Z -> py_div a (inject_Z n) = Ok (a / inject_Z n)%Q.
Proof.
  intros Hn. unfold py_div.
  destruct (Qeq_bool (inject_Z n) 0) eqn:Hz; [|done].
  apply Qeq_bool_eq in Hz. unfold Qeq in Hz. simpl in Hz. lia.
Qed.

(** The guards of the extractor cover every division: it returns on every
    transaction set, with the whole schema and numbers for values. *)
Lemma extract_total (shannon_entropy : list Z -> Q)
    (txs : list Transaction) (wallet : string) :
  exists fv,
    extract shannon_entropy txs wallet = Ok fv
    /\ dom fv = list_to_set SCHEMA
    /\ is_feature_vector fv.
Proof.
  unfold extract.
  set (mine := List.filter (involves wallet) txs).
  assert (Hfreq : exists q,
    (if (length txs <=? 1)%nat || Qeq_bool (span_days txs) 0
     then Ok 0%Q
     else py_div (inject_Z (Z.of_nat (length mine))) (span_days txs)) = Ok q).
  { destruct (length txs <=? 1)%nat; simpl; [by eexists|].
    unfold py_div. destruct (Qeq_bool (span_days txs) 0); by eexists. }
  destruct Hfreq as [q1 ->]. simpl.
  assert (Hratio : exists q,
    (if (Z.of_nat (length mine) =? 0)%Z
     then Ok 0%Q
     else d ← py_div
                (inject_Z (Z.of_nat
                   (length (remove_dups (map (counterparty wallet) mine)))))
                (inject_Z (Z.of_nat (length mine)));
          Ok (1 - d)%Q) = Ok q).
  { destruct (Z.eqb_spec (Z.of_nat (length mine)) 0); [by eexists|].
    rewrite py_div_nonzero by done. by eexists. }
  destruct Hratio as [q2 ->]. simpl.
  eexists. split; [reflexivity|]. split.
  - rewrite !dom_insert_L, dom_empty_L. unfold SCHEMA. simpl. set_solver.
  - repeat (apply map_Forall_insert_2; [by eexists|]). apply map_Forall_empty.
Qed.

(** C6: on the empty transaction set the extractor returns the whole schema
    with the documented defaults (tx_count 0, tx_freq_per_day 0,
    repeated_ratio 0, hour_entropy 10), and it does not fail on zero or on
    one transaction. *)
Theorem extract_empty_defaults (shannon_entropy : list Z -> Q) (wallet : string) :
  extract shannon_entropy [] wallet = Ok default_features
  /\ dom default_features = list_to_set SCHEMA
  /\ default_features !! "tx_count" = Some (PInt 0)
  /\ default_features !! "tx_freq_per_day" = Some (PFloat (Fin 0))
  /\ default_features !! "repeated_ratio" = Some (PFloat (Fin 0))
  /\ default_features !! "hour_entropy" = Some (PFloat (Fin 10))
  /\ forall t : Transaction,
       exists fv, extract shannon_entropy [t] wallet = Ok fv
                  /\ dom fv = list_to_set SCHEMA
                  /\ is_feature_vector fv.
Proof.
  split; [reflexivity|].
  split.
  { unfold default_features, SCHEMA.
    rewrite !dom_insert_L, dom_empty_L. simpl. set_solver. }
  do 4 (split; [reflexivity|]).
  intros t. apply extract_total.
Qed.

(** What the extractor returns on a single transaction. *)
Lemma extract_single (shannon_entropy : list Z -> Q) (t : Transaction)
    (wallet : string) :
  extract shannon_entropy [t] wallet
  = Ok (<["tx_count" := PInt (if involves wallet t then 1 else 0)]> (
        <["tx_freq_per_day" := PFloat (Fin 0)]> (
        <["repeated_ratio" :=
            PFloat (Fin (if involves wallet t then (1 - 1 / 1)%Q else 0%Q))]> (
        <["hour_entropy" := PFloat (Fin 10)]> ∅)))).
Proof.
  unfold extract. simpl.
  destruct (involves wallet t); reflexivity.
Qed.

(** C7: on a transaction set of exactly one transaction the extractor gives
    hour_entropy = 10, the sentinel, and the rule layer does not produce the
    low-entropy flag for that feature vector. *)
Theorem single_transaction_no_low_entropy (shannon_entropy : list Z -> Q)
    (t : Transaction) (wallet : string) :
  exists fv flags,
    extract shannon_entropy [t] wallet = Ok fv
    /\ fv !! "hour_entropy" = Some (PFloat (Fin 10))
    /\ heuristic_signals fv = Ok flags
    /\ FLAG_LOW_ENTROPY ∉ flags.
Proof.
  rewrite extract_single.
  destruct (involves wallet t).
  - do 2 eexists. split; [reflexivity|]. split; [reflexivity|].
    split; [reflexivity|]. compute_done.
  - do 2 eexists. split; [reflexivity|]. split; [reflexivity|].
    split; [reflexivity|]. compute_done.
Qed.

(** ** The anomaly model *)

Lemma dec_Q_reads_back : reads_back enc_Q dec_Q.
Proof. by intros [num den] rest. Qed.

Lemma dec_pair_reads_back : reads_back enc_pair dec_pair.
Proof.
  intros [a b] rest. unfold enc_pair, dec_pair. simpl fst. simpl snd.
  by rewrite <- app_assoc, !dec_Q_reads_back.
Qed.

Lemma dec_char_reads_back : reads_back enc_char dec_char.
Proof.
  intros c rest. unfold enc_char, dec_char. simpl.
  pose proof (Ascii.nat_ascii_bounded c) as Hc.
  rewrite bool_decide_eq_true_2 by lia.
  by rewrite Nat2Z.id, Ascii.ascii_nat_embedding.
Qed.

Lemma dec_repeat_reads_back {A} (enc : A -> list Z) (dec : Reader A)
    (xs : list A) (rest : list Z) :
  reads_back enc dec ->
  dec_repeat dec (length xs) (concat (map enc xs) ++ rest) = Some (xs, rest).
Proof.
  intros Hdec. induction xs as [|x xs IH]; [done|].
  simpl. by rewrite <- app_assoc, Hdec, IH.
Qed.

Lemma dec_list_reads_back {A} (enc : A -> list Z) (dec : Reader A) :
  reads_back enc dec -> reads_back (enc_list enc) (dec_list dec).
Proof.
  intros Hdec xs rest. unfold enc_list, dec_list, dec_nat. simpl.
  rewrite bool_decide_eq_true_2 by lia.
  rewrite Nat2Z.id. by apply dec_repeat_reads_back.
Qed.

Lemma dec_string_reads_back : reads_back enc_string dec_string.
Proof.
  intros s rest. unfold enc_string, dec_string.
  rewrite (dec_list_reads_back enc_char dec_char dec_char_reads_back).
  by rewrite String.string_of_list_ascii_of_string.
Qed.

Lemma dec_tree_fuel_reads_back (t : itree) (fuel : nat) (rest : list Z) :
  (height t < fuel)%nat ->
  dec_tree_fuel fuel (enc_tree t ++ rest) = Some (t, rest).
Proof.
  revert fuel rest.
  induction t as [n | f th below IHb above IHa]; intros fuel rest Hfuel;
    (destruct fuel as [|fuel]; [lia|]); simpl.
  - rewrite bool_decide_eq_true_2 by lia. by rewrite N2Z.id.
  - simpl in Hfuel. rewrite bool_decide_eq_true_2 by lia.
    rewrite <- !app_assoc, IHb, IHa by lia.
    rewrite Nat2Z.id. by destruct th.
Qed.

Lemma height_lt_length (t : itree) : (height t < length (enc_tree t))%nat.
Proof.
  induction t as [n | f th below IHb above IHa]; simpl; [lia|].
  rewrite length_app. lia.
Qed.

Lemma dec_tree_reads_back : reads_back enc_tree dec_tree.
Proof.
  intros t rest. unfold dec_tree. apply dec_tree_fuel_reads_back.
  pose proof (height_lt_length t). rewrite length_app. lia.
Qed.

Lemma dec_model_reads_back (m : FittedModel) (rest : list Z) :
  dec_model (enc_list enc_string (feature_order m)
             ++ enc_list enc_pair (scaling m)
             ++ enc_list enc_tree (estimator m) ++ rest)
  = Some (m, rest).
Proof.
  unfold dec_model.
  rewrite (dec_list_reads_back _ _ dec_string_reads_back).
  rewrite (dec_list_reads_back _ _ dec_pair_reads_back).
  rewrite (dec_list_reads_back _ _ dec_tree_reads_back).
  by destruct m.
Qed.

(** What is persisted is restored as it was. *)
Lemma restore_persist (m : FittedModel) : restore (persist m) = Ok m.
Proof.
  unfold restore, persist.
  rewrite bool_decide_eq_true_2 by done.
  pose proof (dec_model_reads_back m []) as H.
  rewrite !app_nil_r in H. by rewrite H.
Qed.

(** A blob of another schema version is rejected. *)
Lemma restore_rejects_version (version : Z) (body : list Z) :
  version <> Z.of_N SCHEMA_VERSION ->
  raises (restore (version :: body)).
Proof.
  intros Hv. unfold restore. rewrite bool_decide_eq_false_2 by done.
  by eexists.
Qed.

(** The artifact of the sample model, and what a cut or a changed version
    does to it. *)
Example toy_model_round_trip :
  restore (persist toy_model) = Ok toy_model
  /\ raises (restore (take 30 (persist toy_model)))
  /\ raises (restore (2%Z :: tail (persist toy_model))).
Proof.
  split; [vm_compute; reflexivity|].
  split; vm_compute; by eexists.
Qed.

(** The sample vector passes two splits of the first tree and none of the
    second. *)
Example toy_model_scores :
  exists r,
    score_features (fun d => (1 / (1 + d))%Q) (1 # 2) toy_model toy_vector = Ok r
    /\ (raw r == 2)%Q /\ label r = "normal".
Proof.
  eexists. split; [vm_compute; reflexivity|]. split; reflexivity.
Qed.

(** C8: the model restored from the persisted form of a fitted model gives
    the same score result as the original on every feature vector. *)
Theorem restore_persist_scores_identically (calibrate : Q -> Q) (threshold : Q)
    (m : FittedModel) (fv : gmap string Q) :
  exists m',
    restore (persist m) = Ok m'
    /\ score_features calibrate threshold m' fv
       = score_features calibrate threshold m fv.
Proof. exists m. split; [apply restore_persist | reflexivity]. Qed.

(** ** Scenarios of the specification *)

(** On finite values the rule conditions are the inequalities of the
    table. *)
Lemma rule_conditions_finite (q : Q) :
  (num_lt (Fin q) lit_3 = true <-> (q < 3)%Q)
  /\ (num_gt (Fin q) lit_50 = true <-> (50 < q)%Q)
  /\ (num_lt (Fin q) lit_1_0 = true <-> (q < 1)%Q).
Proof. repeat split; apply Qltb_lt. Qed.

(** Scenario 1: the empty transaction list gives tx_count = 0 and the
    very-few-transactions flag. *)
Example scenario_1 (shannon_entropy : list Z -> Q) :
  extract shannon_entropy [] "0xabc" = Ok default_features
  /\ heuristic_signals default_features = Ok [FLAG_FEW_TX].
Proof. split; reflexivity. Qed.

(** * Further properties of the code *)

(** ** The rule layer *)

Lemma elem_of_SCHEMA (k : string) :
  k ∈ SCHEMA <->
  k = "tx_count" \/ k = "tx_freq_per_day" \/ k = "repeated_ratio"
  \/ k = "hour_entropy".
Proof.
  unfold SCHEMA. rewrite !elem_of_cons, elem_of_nil. tauto.
Qed.

(** X1: the rule layer reads the four keys tx_count, tx_freq_per_day,
    repeated_ratio and hour_entropy and nothing else: two dictionaries that
    agree on these keys get the same outcome, whatever else they hold. *)
Theorem heuristic_signals_reads_schema_only (feat feat' : gmap string pyobj) :
  (forall k, k ∈ SCHEMA -> feat !! k = feat' !! k) ->
  heuristic_signals feat = heuristic_signals feat'.
Proof.
  intros Hagree. unfold heuristic_signals, dict_get.
  rewrite (Hagree "tx_count"), (Hagree "tx_freq_per_day"),
    (Hagree "repeated_ratio"), (Hagree "hour_entropy");
    try done; apply elem_of_SCHEMA; tauto.
Qed.

Lemma heuristic_signals_reads_schema_only_witness :
  heuristic_signals scenario_2_annotated = heuristic_signals scenario_2.
Proof.
  apply (heuristic_signals_reads_schema_only scenario_2_annotated scenario_2).
  intros k Hk. apply elem_of_SCHEMA in Hk.
  destruct Hk as [-> | [-> | [-> | ->]]]; reflexivity.
Defined.

(** Either the four values read are numbers and the outcome is what the
    table yields, or one of them is not and the comparison raises. *)
Lemma heuristic_signals_cases (feat : gmap string pyobj) :
  heuristic_signals feat = Ok (evaluate code_table NO_FLAGS (feature_value feat))
  /\ (forall k, k ∈ SCHEMA ->
        feature_number feat k (feature_default k) = Some (feature_value feat k))
  \/ heuristic_signals feat = Raise type_error
     /\ exists k, k ∈ SCHEMA /\ feature_number feat k (feature_default k) = None.
Proof.
  destruct (feature_number feat "tx_count" 0) as [x1|] eqn:H1;
  [destruct (feature_number feat "tx_freq_per_day" 0) as [x2|] eqn:H2;
   [destruct (feature_number feat "repeated_ratio" 0) as [x3|] eqn:H3;
    [destruct (feature_number feat "hour_entropy" 10) as [x4|] eqn:H4|]|]|].
  - left.
    destruct (heuristic_signals_evaluate feat x1 x2 x3 x4)
      as (-> & V1 & V2 & V3 & V4); try done.
    split; [done|]. intros k Hk. apply elem_of_SCHEMA in Hk.
    destruct Hk as [-> | [-> | [-> | ->]]];
      try change (feature_default "hour_entropy") with 10%Z;
      try change (feature_default _) with 0%Z; congruence.
  - right. split.
    + unfold heuristic_signals, py_lt, py_gt.
      unfold feature_number in H1, H2, H3, H4. by rewrite H1, H2, H3, H4.
    + exists "hour_entropy". split; [apply elem_of_SCHEMA; tauto | exact H4].
  - right. split.
    + unfold heuristic_signals, py_lt, py_gt.
      unfold feature_number in H1, H2, H3. by rewrite H1, H2, H3.
    + exists "repeated_ratio". split; [apply elem_of_SCHEMA; tauto | exact H3].
  - right. split.
    + unfold heuristic_signals, py_lt, py_gt.
      unfold feature_number in H1, H2. by rewrite H1, H2.
    + exists "tx_freq_per_day". split; [apply elem_of_SCHEMA; tauto | exact H2].
  - right. split.
    + unfold heuristic_signals, py_lt, py_gt.
      unfold feature_number in H1. by rewrite H1.
    + exists "tx_count". split; [apply elem_of_SCHEMA; tauto | exact H1].
Qed.

(** X2: the rule layer raises exactly when one of the four values it reads
    (the stored value, or the default of a missing key) is not a number, and
    what it raises then is the TypeError of the comparison. *)
Theorem heuristic_signals_raises_iff (feat : gmap string pyobj) :
  (raises (heuristic_signals feat) <->
   exists k, k ∈ SCHEMA /\ feature_number feat k (feature_default k) = None)
  /\ (forall e, heuristic_signals feat = Raise e -> e = type_error).
Proof.
  destruct (heuristic_signals_cases feat) as [[Hok Hnum] | [Hr Hnone]].
  - rewrite Hok. split; [|done]. split; [by intros [e He]|].
    intros (k & Hk & Hn). by rewrite (Hnum k Hk) in Hn.
  - rewrite Hr. split; [|congruence]. split; [done | by eexists].
Qed.

(** What the table yields is never empty and never longer than the table,
    has no entry twice, and holds the no-flags entry only alone. *)
Lemma evaluate_code_table_shape (v : string -> number) :
  let out := evaluate code_table NO_FLAGS v in
  (1 <= length out <= 4)%nat
  /\ NoDup out
  /\ (NO_FLAGS ∈ out -> out = [NO_FLAGS])
  /\ Forall (fun f => f = NO_FLAGS \/ f ∈ ALL_FLAGS) out.
Proof.
  unfold evaluate, code_table, rule_table.
  cbn -[num_lt num_gt].
  destruct (num_lt (v "tx_count") lit_3), (num_gt (v "tx_freq_per_day") lit_50),
    (num_gt (v "repeated_ratio") lit_0_6), (num_lt (v "hour_entropy") lit_1_0);
    cbn; compute_done.
Qed.

(** X3: whenever the rule layer returns, its output has between one and four
    entries, none of them twice, each either a rule flag or the no-flags
    entry, and the no-flags entry never stands beside a rule flag. *)
Theorem heuristic_output_shape (feat : gmap string pyobj) (out : list string) :
  heuristic_signals feat = Ok out ->
  (1 <= length out <= 4)%nat
  /\ NoDup out
  /\ (NO_FLAGS ∈ out -> out = [NO_FLAGS])
  /\ Forall (fun f => f = NO_FLAGS \/ f ∈ ALL_FLAGS) out.
Proof.
  intros Hout.
  destruct (heuristic_signals_cases feat) as [[Hok _] | [Hr _]]; [|congruence].
  rewrite Hok in Hout. injection Hout as <-.
  apply evaluate_code_table_shape.
Qed.

Lemma heuristic_output_shape_witness :
  (1 <= length [FLAG_HIGH_FREQ; FLAG_REPEATED] <= 4)%nat
  /\ NoDup [FLAG_HIGH_FREQ; FLAG_REPEATED]
  /\ (NO_FLAGS ∈ [FLAG_HIGH_FREQ; FLAG_REPEATED]
      -> [FLAG_HIGH_FREQ; FLAG_REPEATED] = [NO_FLAGS])
  /\ Forall (fun f => f = NO_FLAGS \/ f ∈ ALL_FLAGS)
        [FLAG_HIGH_FREQ; FLAG_REPEATED].
Proof.
  apply (heuristic_output_shape scenario_2). reflexivity.
Defined.

(** X4: a NaN never fires a rule: on a feature vector, the flag of a rule
    whose value is NaN is absent, and when the four values are NaN the output
    is the single no-flags entry. *)
Theorem nan_fires_no_rule (feat : gmap string pyobj) :
  is_feature_vector feat ->
  exists out,
    heuristic_signals feat = Ok out
    /\ (feat !! "tx_count" = Some (PFloat NaN) -> FLAG_FEW_TX ∉ out)
    /\ (feat !! "tx_freq_per_day" = Some (PFloat NaN) -> FLAG_HIGH_FREQ ∉ out)
    /\ (feat !! "repeated_ratio" = Some (PFloat NaN) -> FLAG_REPEATED ∉ out)
    /\ (feat !! "hour_entropy" = Some (PFloat NaN) -> FLAG_LOW_ENTROPY ∉ out)
    /\ (feat !! "tx_count" = Some (PFloat NaN) ->
        feat !! "tx_freq_per_day" = Some (PFloat NaN) ->
        feat !! "repeated_ratio" = Some (PFloat NaN) ->
        feat !! "hour_entropy" = Some (PFloat NaN) -> out = [NO_FLAGS]).
Proof.
  intros Hfv. eexists. split; [by apply heuristic_signals_feature_vector|].
  assert (Hnan : forall k, feat !! k = Some (PFloat NaN) ->
                           feature_value feat k = NaN).
  { intros k Hk. unfold feature_value, feature_number, dict_get. by rewrite Hk. }
  destruct (evaluate_code_table (feature_value feat)) as (I1 & I2 & I3 & I4 & _).
  split; [intros Hk; rewrite I1, (Hnan _ Hk); done|].
  split; [intros Hk; rewrite I2, (Hnan _ Hk); done|].
  split; [intros Hk; rewrite I3, (Hnan _ Hk); done|].
  split; [intros Hk; rewrite I4, (Hnan _ Hk); done|].
  intros K1 K2 K3 K4. unfold evaluate, code_table, rule_table.
  cbn -[num_lt num_gt feature_value].
  by rewrite (Hnan _ K1), (Hnan _ K2), (Hnan _ K3), (Hnan _ K4).
Qed.

Lemma all_nan_feature_vector : is_feature_vector all_nan.
Proof.
  unfold all_nan.
  repeat (apply map_Forall_insert_2; [by eexists|]).
  apply map_Forall_empty.
Qed.

Lemma nan_fires_no_rule_witness :
  is_feature_vector all_nan /\ heuristic_signals all_nan = Ok [NO_FLAGS].
Proof.
  split; [exact all_nan_feature_vector|].
  destruct (nan_fires_no_rule all_nan all_nan_feature_vector)
    as (out & Hout & _ & _ & _ & _ & Hall).
  rewrite Hout. f_equal. by apply Hall.
Defined.

(** ** The Etherscan wrapper, further *)

(** The [try] block returns exactly on a clean answer. *)
Lemma fetch_body_returns_iff (http : http_layer) (params : gmap string pyobj) :
  returns (fetch_body http params)
  <-> clean_answer (http (mkRequest ETHERSCAN_BASE params 20)).
Proof.
  unfold fetch_body, clean_answer.
  destruct (http _) as [r|e]; simpl.
  - unfold raise_for_status. case_bool_decide as Hcode; simpl.
    + split; [by intros [v Hv]|]. intros (r' & d & [= <-] & Hn & _). done.
    + destruct (json r) as [data|e] eqn:Hd; simpl.
      * destruct data as [ | | | | | |d]; simpl;
          try (split; [by intros [v Hv]
                      | intros (r' & d' & [= <-] & _ & Hj); congruence]).
        split; [intros _; by exists r, d|]. intros _.
        destruct (py_ne_str _ _); by eexists.
      * split; [by intros [v Hv]
               | intros (r' & d' & [= <-] & _ & Hj); congruence].
  - split; [by intros [v Hv] | by intros (r' & d' & Hr & _)].
Qed.

(** A piece that the output refuses ends the writing: the pieces before it
    are written, and the error of the stream is raised. *)
Lemma write_all_refused_after (out : console)
    (written before after : list string) (piece : string) (err : stream_error) :
  takes_after out written before ->
  out (written ++ before) piece = Some err ->
  write_all out written (before ++ piece :: after)
  = (before, Raise (stream_exn err)).
Proof.
  revert written. induction before as [|p rest IH]; intros written; simpl.
  - intros _. rewrite app_nil_r. by intros ->.
  - intros [Hp Hrest] Hpiece. rewrite Hp.
    rewrite (IH (written ++ [p]) Hrest); [done|].
    by rewrite <- app_assoc.
Qed.

Lemma write_all_refused (out : console) (before after : list string)
    (piece : string) (err : stream_error) :
  takes out before -> out before piece = Some err ->
  write_all out [] (before ++ piece :: after)
  = (before, Raise (stream_exn err)).
Proof. apply write_all_refused_after. Qed.

(** X5: the wrapper writes nothing to the standard output when the answer is
    a response outside the 4xx and 5xx codes whose body decodes to an object
    (also when that object reports an API error).  On every other answer it
    writes the warning text, a blank, the text of the error and a newline, in
    this order, and returns the empty sequence; when the standard output
    refuses one of these pieces, the pieces before it are written and the
    wrapper raises the error of the stream to its caller.  After a network
    error the text is the text of that error. *)
Theorem fetch_transactions_prints (http : http_layer) (out : console)
    (address api_key startblock endblock sort : pyobj) :
  http_ordinary http ->
  let answer := http (fetch_request address api_key startblock endblock sort) in
  let outcome :=
    fetch_transactions http out address api_key startblock endblock sort in
  (clean_answer answer -> fst outcome = [])
  /\ (~ clean_answer answer ->
      exists e,
        (forall e0, answer = Raise e0 -> e = e0)
        /\ (takes out (warning_pieces e) ->
            outcome = (warning_pieces e, Ok (PList [])))
        /\ (forall before piece after err,
              warning_pieces e = before ++ piece :: after ->
              takes out before -> out before piece = Some err ->
              outcome = (before, Raise (stream_exn err)))).
Proof.
  intros Hord answer outcome. subst answer outcome.
  rewrite fetch_transactions_body.
  pose proof (fetch_body_returns_iff http
                (fetch_params address api_key startblock endblock sort)) as Hiff.
  pose proof (fetch_body_ordinary http
                (fetch_params address api_key startblock endblock sort) Hord) as Ho.
  unfold fetch_request. split.
  - intros Hclean. apply Hiff in Hclean as [v ->]. done.
  - intros Hn. destruct (fetch_body _ _) as [v|e] eqn:Hb.
    + destruct Hn. apply Hiff. by eexists.
    + rewrite (Ho e eq_refl). exists e. split; [|split].
      * intros e0 He0. unfold fetch_body in Hb. rewrite He0 in Hb.
        simpl in Hb. congruence.
      * intros Htakes. by rewrite (write_all_takes out _ Htakes).
      * intros before piece after err -> Hbefore Hpiece.
        by rewrite (write_all_refused out before after piece err).
Qed.

Lemma offline_http_not_clean (req : request) : ~ clean_answer (offline_http req).
Proof. by intros (r & d & Hr & _). Qed.

Lemma fetch_transactions_prints_witness :
  http_ordinary offline_http
  /\ fetch_transactions offline_http utf8_console (PStr "0x00") (PStr "KEY")
       (PInt 0) (PInt 99999999) (PStr "asc")
     = ([WARNING; " "; "Max retries exceeded"; newline], Ok (PList []))
  /\ fetch_transactions offline_http ascii_console (PStr "0x00") (PStr "KEY")
       (PInt 0) (PInt 99999999) (PStr "asc")
     = ([], Raise (stream_exn CannotEncode)).
Proof.
  split; [exact offline_http_ordinary|]. split.
  - destruct (fetch_transactions_prints offline_http utf8_console
                (PStr "0x00") (PStr "KEY")
                (PInt 0) (PInt 99999999) (PStr "asc") offline_http_ordinary)
      as (_ & Hrest).
    destruct (Hrest (offline_http_not_clean _)) as (e & He & Htakes & _).
    rewrite (He (mkExn ConnectionError "Max retries exceeded") eq_refl)
      in Htakes.
    exact (Htakes (utf8_console_takes _)).
  - destruct (fetch_transactions_prints offline_http ascii_console
                (PStr "0x00") (PStr "KEY")
                (PInt 0) (PInt 99999999) (PStr "asc") offline_http_ordinary)
      as (_ & Hrest).
    destruct (Hrest (offline_http_not_clean _)) as (e & He & _ & Hrefused).
    rewrite (He (mkExn ConnectionError "Max retries exceeded") eq_refl)
      in Hrefused.
    exact (Hrefused [] WARNING _ CannotEncode eq_refl I eq_refl).
Defined.

(** X6: an exception that does not derive from [Exception], raised by the
    request or by the decoding of the body, is not swallowed: the wrapper
    raises it to its caller and prints nothing. *)
Theorem fetch_transactions_reraises (http : http_layer) (out : console)
    (address api_key startblock endblock sort : pyobj) (e : exn) :
  is_Exception (exn_cls e) = false ->
  let answer := http (fetch_request address api_key startblock endblock sort) in
  answer = Raise e
  \/ (exists r, answer = Ok r /\ ~ (400 <= status_code r < 600)%Z
                /\ json r = Raise e) ->
  fetch_transactions http out address api_key startblock endblock sort
  = ([], Raise e).
Proof.
  intros He answer Hcase. subst answer.
  rewrite fetch_transactions_body. unfold fetch_body, fetch_request in *.
  destruct Hcase as [-> | (r & -> & Hcode & Hj)]; simpl.
  - by rewrite He.
  - unfold raise_for_status. rewrite bool_decide_eq_false_2 by done. simpl.
    rewrite Hj. simpl. by rewrite He.
Qed.

Lemma fetch_transactions_reraises_witness :
  fetch_transactions interrupted_http utf8_console (PStr "0x00") (PStr "KEY")
    (PInt 0) (PInt 99999999) (PStr "asc")
  = ([], Raise (mkExn KeyboardInterrupt "")).
Proof.
  apply (fetch_transactions_reraises interrupted_http).
  - reflexivity.
  - left. reflexivity.
Defined.

(** X7: the wrapper sends one request, to the Etherscan base URL with a
    timeout of 20 and the seven parameters module=account, action=txlist,
    address, startblock, endblock, sort and apikey, and its outcome depends on
    the HTTP layer through the answer to that request only. *)
Theorem fetch_transactions_single_request (http http' : http_layer)
    (out : console)
    (address api_key startblock endblock sort : pyobj) :
  let req := fetch_request address api_key startblock endblock sort in
  http req = http' req ->
  fetch_transactions http out address api_key startblock endblock sort
  = fetch_transactions http' out address api_key startblock endblock sort
  /\ req_url req = "https://api.etherscan.io/api"
  /\ req_timeout req = 20%Z
  /\ req_params req
     = list_to_map [ ("module", PStr "account"); ("action", PStr "txlist");
                     ("address", address); ("startblock", startblock);
                     ("endblock", endblock); ("sort", sort);
                     ("apikey", api_key) ].
Proof.
  intros req Hsame. subst req. split; [|by repeat split].
  rewrite !fetch_transactions_body. unfold fetch_body.
  unfold fetch_request in Hsame. by rewrite Hsame.
Qed.

Lemma fetch_transactions_single_request_witness :
  fetch_transactions
    (answers_in_20 (no_transactions_http (mkRequest "" ∅ 0))) utf8_console
    (PStr "0x00") (PStr "KEY") (PInt 0) (PInt 99999999) (PStr "asc")
  = fetch_transactions no_transactions_http utf8_console
      (PStr "0x00") (PStr "KEY") (PInt 0) (PInt 99999999) (PStr "asc").
Proof.
  apply (fetch_transactions_single_request
           (answers_in_20 (no_transactions_http (mkRequest "" ∅ 0)))
           no_transactions_http).
  reflexivity.
Defined.

(** ** The script, further *)

Lemma file_env_ordinary : env_ordinary file_core (file_env offline_http).
Proof.
  repeat split.
  - intros b e. simpl. case_bool_decide; [by intros [= <-] | done].
  - intros m feat e. done.
  - intros txs e. destruct txs; simpl; try done; by intros [= <-].
  - intros df e. done.
  - apply offline_http_ordinary.
  - apply offline_http_ordinary.
  - intros e. done.
  - intros data e. done.
  - intros v e. done.
Qed.

Lemma quiet_trans {C} (s1 s2 s3 : state C) (e1 e2 : list (ui_event C)) :
  quiet s1 s2 e1 -> quiet s2 s3 e2 -> quiet s1 s3 (e1 ++ e2).
Proof.
  intros (U1 & M1 & O1) (U2 & M2 & O2). unfold quiet.
  rewrite U2, U1, O2, O1, app_assoc. split; [done|].
  split; [by apply no_metric_app | done].
Qed.

(** What [load_model] does: it returns the cached model and leaves the state;
    or it loads the file, caches and returns the model; or it raises what the
    loader raised, or that there is no file, and leaves the state. *)
Lemma load_model_cases (C : Core) (s : state C) :
  (exists m, cache s = Some m /\ load_model C s = (s, Ok m))
  \/ (exists b m, cache s = None /\ model_file s = Some b
                  /\ model_load C b = Ok m
                  /\ load_model C s
                     = (mkState (ui s) (stdout s) (model_file s) (Some m), Ok m))
  \/ (exists b e, cache s = None /\ model_file s = Some b
                  /\ model_load C b = Raise e
                  /\ load_model C s = (s, Raise e))
  \/ (cache s = None /\ model_file s = None
      /\ load_model C s
         = (s, Raise (mkExn OSError "No such file or directory"))).
Proof.
  unfold load_model.
  destruct (cache s) as [m|] eqn:Hc; [left; by eexists|].
  right. destruct (model_file s) as [b|] eqn:Hf.
  - destruct (model_load C b) as [m|e] eqn:Hl.
    + left. by exists b, m.
    + right. left. by exists b, e.
  - by do 2 right.
Qed.

(** In every case [load_model] leaves the page, the output and the file, and
    an ordinary loader makes it raise ordinary exceptions only. *)
Lemma load_model_frame (C : Core) (s : state C) :
  (forall b, ordinary (model_load C b)) ->
  (exists m s', load_model C s = (s', Ok m)
                /\ ui s' = ui s /\ stdout s' = stdout s
                /\ model_file s' = model_file s /\ cache s' = Some m)
  \/ (exists e, load_model C s = (s, Raise e)
                /\ is_Exception (exn_cls e) = true).
Proof.
  intros Hord.
  destruct (load_model_cases C s)
    as [(m & Hc & ->) | [(b & m & Hc & Hf & Hl & ->)
       | [(b & e & Hc & Hf & Hl & ->) | (Hc & Hf & ->)]]].
  - left. by exists m, s.
  - left. by eexists m, _.
  - right. exists e. split; [done|]. by apply (Hord b).
  - right. by eexists.
Qed.

Ltac quiet_done :=
  unfold quiet; simpl;
  repeat match goal with
         | H : ui _ = _ |- _ => rewrite H; clear H
         | H : stdout _ = _ |- _ => rewrite H; clear H
         | H : model_file _ = _ |- _ => rewrite H; clear H
         end;
  rewrite <- ?app_assoc;
  repeat split; try reflexivity; try done; repeat constructor.

Lemma initial_load_returns (C : Core) (s : state C) :
  (forall b, ordinary (model_load C b)) ->
  exists s1 sg evs,
    initial_load C s = (s1, Ok sg)
    /\ quiet s s1 evs /\ model_file s1 = model_file s.
Proof.
  intros Hord. unfold initial_load, mbind, M_bind, model_path_exists. simpl.
  destruct (bool_decide (is_Some (model_file s))).
  - unfold try_except, mbind, M_bind.
    destruct (load_model_frame C s Hord)
      as [(m & s' & -> & Hu & Ho & Hf & Hc) | (e & -> & He)]; simpl.
    + do 3 eexists. split; [reflexivity|]. quiet_done.
    + rewrite He. simpl. do 3 eexists. split; [reflexivity|]. quiet_done.
  - simpl. do 3 eexists. split; [reflexivity|]. quiet_done.
Qed.

Lemma reload_block_returns (C : Core) (W : widgets) (sg : option (Model C))
    (s : state C) :
  (forall b, ordinary (model_load C b)) ->
  exists s1 sg' evs,
    reload_block C W sg s = (s1, Ok sg')
    /\ quiet s s1 evs /\ model_file s1 = model_file s.
Proof.
  intros Hord. unfold reload_block.
  destruct (reload_clicked W).
  - unfold mbind, M_bind, model_path_exists. simpl.
    destruct (bool_decide (is_Some (model_file s))).
    + unfold try_except, mbind, M_bind.
      destruct (load_model_frame C s Hord)
        as [(m & s' & -> & Hu & Ho & Hf & Hc) | (e & -> & He)]; simpl.
      * do 3 eexists. split; [reflexivity|]. quiet_done.
      * rewrite He. simpl. do 3 eexists. split; [reflexivity|]. quiet_done.
    + simpl. do 3 eexists. split; [reflexivity|]. quiet_done.
  - exists s, sg, []. split; [reflexivity|]. quiet_done. by rewrite app_nil_r.
Qed.

Lemma upload_block_returns (C : Core) (E : Env C) (W : widgets)
    (sg : option (Model C)) (s : state C) :
  (forall b, ordinary (model_load C b)) ->
  (forall data, ordinary (write_bytes E data)) ->
  exists s1 sg' evs,
    upload_block C E W sg s = (s1, Ok sg') /\ quiet s s1 evs.
Proof.
  intros Hord Hwrite. unfold upload_block.
  destruct (uploaded W) as [data|].
  - unfold try_except, mbind, M_bind, lift, set_model_file.
    destruct (write_bytes E data) as [[]|e] eqn:Hw; simpl.
    + destruct (load_model_frame C
                  (mkState (ui s) (stdout s) (Some data) (cache s)) Hord)
        as [(m & s' & -> & Hu & Ho & Hf & Hc) | (e & -> & He)]; simpl.
      * simpl in *. do 3 eexists. split; [reflexivity|]. quiet_done.
      * rewrite He. simpl. do 3 eexists. split; [reflexivity|]. quiet_done.
    + rewrite (Hwrite data e Hw). simpl.
      do 3 eexists. split; [reflexivity|]. quiet_done.
  - exists s, sg, []. split; [reflexivity|]. quiet_done. by rewrite app_nil_r.
Qed.

Lemma train_block_returns (C : Core) (E : Env C) (W : widgets)
    (sg : option (Model C)) (s : state C) :
  (forall b, ordinary (model_load C b)) ->
  ordinary (read_csv_sim E) ->
  (forall df, ordinary (train_and_persist_model C df)) ->
  exists s1 sg' evs,
    train_block C E W sg s = (s1, Ok sg') /\ quiet s s1 evs.
Proof.
  intros Hord Hcsv Htrain. unfold train_block.
  unfold mbind at 1. unfold M_bind at 1. simpl.
  destruct (train_clicked W).
  - destruct (sim_features_exists E).
    + unfold try_except, mbind, M_bind, lift, set_model_file.
      destruct (read_csv_sim E) as [df|e] eqn:Hr; simpl.
      * destruct (train_and_persist_model C df) as [b|e] eqn:Ht; simpl.
        -- destruct (load_model_frame C
                       (mkState (ui s ++ [SidebarMarkdown "---"]) (stdout s)
                          (Some b) (cache s)) Hord)
             as [(m & s' & -> & Hu & Ho & Hf & Hc) | (e & -> & He)]; simpl.
           ++ simpl in *. do 3 eexists. split; [reflexivity|]. quiet_done.
           ++ rewrite He. simpl. do 3 eexists. split; [reflexivity|]. quiet_done.
        -- rewrite (Htrain df e Ht). simpl.
           do 3 eexists. split; [reflexivity|]. quiet_done.
      * rewrite (Hcsv e eq_refl). simpl.
        do 3 eexists. split; [reflexivity|]. quiet_done.
    + simpl. do 3 eexists. split; [reflexivity|]. quiet_done.
  - simpl. do 3 eexists. split; [reflexivity|]. quiet_done.
Qed.

(** The model controls return whatever the buttons, the file and the cache
    are, as long as what they call raises ordinary exceptions; they show no
    score and print nothing. *)
Lemma model_controls_returns (C : Core) (E : Env C) (W : widgets) (s : state C) :
  env_ordinary C E ->
  exists s1 sg evs,
    model_controls C E W s = (s1, Ok sg) /\ quiet s s1 evs.
Proof.
  intros (Hload & _ & _ & Htrain & _ & Hcsv & Hwrite & _).
  unfold model_controls.
  destruct (emit_extends (SidebarMarkdown "---") s) as (s1 & R1 & _).
  assert (Q1 : quiet s s1 [SidebarMarkdown "---"])
    by (injection R1 as <-; quiet_done).
  rewrite (bind_ok _ _ _ _ _ R1).
  destruct (emit_extends (SidebarSubheader "Model") s1) as (s2 & R2 & _).
  assert (Q2 : quiet s1 s2 [SidebarSubheader "Model"])
    by (injection R2 as <-; quiet_done).
  rewrite (bind_ok _ _ _ _ _ R2).
  destruct (initial_load_returns C s2 Hload) as (s3 & sg3 & e3 & R3 & Q3 & _).
  rewrite (bind_ok _ _ _ _ _ R3).
  destruct (reload_block_returns C W sg3 s3 Hload) as (s4 & sg4 & e4 & R4 & Q4 & _).
  rewrite (bind_ok _ _ _ _ _ R4).
  destruct (upload_block_returns C E W sg4 s4 Hload Hwrite)
    as (s5 & sg5 & e5 & R5 & Q5).
  rewrite (bind_ok _ _ _ _ _ R5).
  destruct (train_block_returns C E W sg5 s5 Hload Hcsv Htrain)
    as (s6 & sg6 & e6 & R6 & Q6).
  exists s6, sg6. eexists. split; [exact R6|].
  exact (quiet_trans _ _ _ _ _ Q1
           (quiet_trans _ _ _ _ _ Q2
              (quiet_trans _ _ _ _ _ Q3
                 (quiet_trans _ _ _ _ _ Q4 (quiet_trans _ _ _ _ _ Q5 Q6))))).
Qed.

Lemma extends_ui {C} (s s' : state C) (evs : list (ui_event C)) :
  extends s s' evs -> ui s' = ui s ++ evs.
Proof. by intros (U & _). Qed.






(** A CSV that is read and has no rows: the draw of the sample raises, and
    the run aborts. *)
Example empty_sample_aborts :
  exists msg,
    snd (script file_core (file_env offline_http) sample_widgets
           (fresh_state file_core None))
    = Raise (mkExn ValueError msg).
Proof. by eexists. Qed.

(** The Train block when the CSV of simulated features cannot be read: the
    failure is caught and written to the sidebar, with the traceback. *)
Lemma train_block_csv_failure (C : Core) (E : Env C) (W : widgets)
    (sg : option (Model C)) (s : state C) (e : exn) :
  train_clicked W = true -> sim_features_exists E = true ->
  read_csv_sim E = Raise e -> is_Exception (exn_cls e) = true ->
  exists s1,
    train_block C E W sg s = (s1, Ok sg)
    /\ quiet s s1 [ SidebarMarkdown "---";
                    SidebarError ("Training failed: " +:+ exn_msg e);
                    SidebarText (format_exc E e) ].
Proof.
  intros Htrain Hsim Hread He. unfold train_block.
  unfold mbind at 1. unfold M_bind at 1. simpl.
  rewrite Htrain, Hsim.
  unfold try_except, mbind, M_bind, lift. rewrite Hread, He. simpl.
  eexists. split; [reflexivity|]. quiet_done.
Qed.

(** The model controls in the same case: they return, and the failure of the
    training is among what they show. *)
Lemma model_controls_csv_failure (C : Core) (E : Env C) (W : widgets)
    (s : state C) (e : exn) :
  env_ordinary C E ->
  train_clicked W = true -> sim_features_exists E = true ->
  read_csv_sim E = Raise e ->
  exists s1 sg evs,
    model_controls C E W s = (s1, Ok sg) /\ quiet s s1 evs
    /\ SidebarError ("Training failed: " +:+ exn_msg e) ∈ evs.
Proof.
  intros (Hload & _ & _ & _ & _ & Hcsv & Hwrite & _) Htrain Hsim Hread.
  unfold model_controls.
  destruct (emit_extends (SidebarMarkdown "---") s) as (s1 & R1 & _).
  assert (Q1 : quiet s s1 [SidebarMarkdown "---"])
    by (injection R1 as <-; quiet_done).
  rewrite (bind_ok _ _ _ _ _ R1).
  destruct (emit_extends (SidebarSubheader "Model") s1) as (s2 & R2 & _).
  assert (Q2 : quiet s1 s2 [SidebarSubheader "Model"])
    by (injection R2 as <-; quiet_done).
  rewrite (bind_ok _ _ _ _ _ R2).
  destruct (initial_load_returns C s2 Hload) as (s3 & sg3 & e3 & R3 & Q3 & _).
  rewrite (bind_ok _ _ _ _ _ R3).
  destruct (reload_block_returns C W sg3 s3 Hload) as (s4 & sg4 & e4 & R4 & Q4 & _).
  rewrite (bind_ok _ _ _ _ _ R4).
  destruct (upload_block_returns C E W sg4 s4 Hload Hwrite)
    as (s5 & sg5 & e5 & R5 & Q5).
  rewrite (bind_ok _ _ _ _ _ R5).
  destruct (train_block_csv_failure C E W sg5 s5 e Htrain Hsim Hread
              (Hcsv e Hread)) as (s6 & R6 & Q6).
  exists s6, sg5. eexists. split; [exact R6|]. split.
  - exact (quiet_trans _ _ _ _ _ Q1
             (quiet_trans _ _ _ _ _ Q2
                (quiet_trans _ _ _ _ _ Q3
                   (quiet_trans _ _ _ _ _ Q4 (quiet_trans _ _ _ _ _ Q5 Q6))))).
  - rewrite !elem_of_app. do 5 right.
    apply list_elem_of_further, list_elem_of_here.
Qed.

(** X9: a CSV of simulated features that cannot be read aborts the run when
    the sample is asked for: the exception of the reader (line 133) leaves
    the script uncaught, after the sidebar and the header, and no score is
    shown.  When the Train button is pressed in the same run, the same
    failure of the same read (line 100) is caught there and reported in the
    sidebar as a failed training, before the run aborts. *)
Theorem sample_csv_failure_aborts (C : Core) (E : Env C) (W : widgets)
    (s : state C) (e : exn) :
  env_ordinary C E ->
  analyze_clicked W = true -> use_sample W = true ->
  sim_features_exists E = true -> read_csv_sim E = Raise e ->
  exists s' evs,
    script C E W s = (s', Raise e) /\ ui s' = ui s ++ evs /\ no_metric evs
    /\ (train_clicked W = true ->
        SidebarError ("Training failed: " +:+ exn_msg e) ∈ evs).
Proof.
  intros Hord Han Hsample Hsim Hread. unfold script.
  assert (Hcontrols : exists s1 sg e1,
            model_controls C E W s = (s1, Ok sg) /\ quiet s s1 e1
            /\ (train_clicked W = true ->
                SidebarError ("Training failed: " +:+ exn_msg e) ∈ e1)).
  { destruct (train_clicked W) eqn:Htrain.
    - destruct (model_controls_csv_failure C E W s e Hord Htrain Hsim Hread)
        as (s1 & sg & e1 & R1 & Q1 & Hin).
      by exists s1, sg, e1.
    - destruct (model_controls_returns C E W s Hord) as (s1 & sg & e1 & R1 & Q1).
      by exists s1, sg, e1. }
  destruct Hcontrols as (s1 & sg & e1 & R1 & (Q1 & M1 & _) & Hin).
  rewrite (bind_ok _ _ _ _ _ R1).
  destruct (main_area_header_events C E s1) as (s2 & e2 & R2 & X2 & M2).
  rewrite (bind_ok _ _ _ _ _ R2). rewrite Han.
  unfold analyze_block. rewrite Hsample, Hsim.
  unfold mbind, M_bind, lift. rewrite Hread.
  exists s2, (e1 ++ e2). split; [reflexivity|]. split; [|split].
  - by rewrite (extends_ui _ _ _ X2), Q1, <- app_assoc.
  - by apply no_metric_app.
  - intros Htrain. apply elem_of_app. left. by apply Hin.
Qed.

Lemma unreadable_csv_env_ordinary :
  env_ordinary file_core (unreadable_csv_env offline_http).
Proof.
  repeat split.
  - intros b e. simpl. case_bool_decide; [by intros [= <-] | done].
  - intros m feat e. done.
  - intros txs e. destruct txs; simpl; try done; by intros [= <-].
  - intros df e. done.
  - apply offline_http_ordinary.
  - apply offline_http_ordinary.
  - intros e. by intros [= <-].
  - intros data e. done.
  - intros v e. done.
Qed.

Lemma sample_csv_failure_aborts_witness :
  exists s' evs,
    script file_core (unreadable_csv_env offline_http) sample_train_widgets
      (fresh_state file_core None)
    = (s', Raise (mkExn ValueError "No columns to parse from file"))
    /\ ui s' = ui (fresh_state file_core None) ++ evs /\ no_metric evs
    /\ SidebarError "Training failed: No columns to parse from file" ∈ evs.
Proof.
  destruct (sample_csv_failure_aborts file_core
              (unreadable_csv_env offline_http) sample_train_widgets
              (fresh_state file_core None)
              (mkExn ValueError "No columns to parse from file")
              unreadable_csv_env_ordinary eq_refl eq_refl eq_refl eq_refl)
    as (s' & evs & Hrun & Hui & Hmetric & Htrain).
  exists s', evs. repeat split; try assumption. exact (Htrain eq_refl).
Defined.




Lemma same_store_add_events {C} (s : state C) (evs : list (ui_event C)) :
  same_store (add_events s evs) s.
Proof. done. Qed.

(** What is on the page has no influence on an upload or a training. *)
Lemma upload_block_store (C : Core) (E : Env C) (W : widgets)
    (sg : option (Model C)) (s t : state C) :
  same_store s t ->
  snd (upload_block C E W sg s) = snd (upload_block C E W sg t)
  /\ same_store (fst (upload_block C E W sg s)) (fst (upload_block C E W sg t)).
Proof.
  destruct s as [u1 o f c], t as [u2 o' f' c']. intros (Ho & Hf & Hc).
  simpl in *. subst o' f' c'.
  unfold upload_block, try_except, mbind, M_bind, emit, load_model, mret, M_ret,
    lift, set_model_file, same_store.
  simpl. repeat (case_match; simplify_eq/=); done.
Qed.

Lemma train_block_store (C : Core) (E : Env C) (W : widgets)
    (sg : option (Model C)) (s t : state C) :
  same_store s t ->
  snd (train_block C E W sg s) = snd (train_block C E W sg t)
  /\ same_store (fst (train_block C E W sg s)) (fst (train_block C E W sg t)).
Proof.
  destruct s as [u1 o f c], t as [u2 o' f' c']. intros (Ho & Hf & Hc).
  simpl in *. subst o' f' c'.
  unfold train_block, try_except, mbind, M_bind, emit, load_model, mret, M_ret,
    lift, set_model_file, same_store.
  simpl. repeat (case_match; simplify_eq/=); done.
Qed.

(** After the initial load, the Reload button gives back the model the
    initial load left, and adds to the page only. *)
Lemma reload_after_initial_load (C : Core) (W : widgets) (s s1 : state C)
    (sg : option (Model C)) :
  initial_load C s = (s1, Ok sg) ->
  exists evs, reload_block C W sg s1 = (add_events s1 evs, Ok sg).
Proof.
  destruct s as [u o f c].
  unfold initial_load, reload_block, try_except, mbind, M_bind, emit,
    model_path_exists, load_model, mret, M_ret, add_events.
  simpl. intros Hinit.
  repeat (case_match; simplify_eq/=);
    try (by eexists); try (exists []; simpl; by rewrite app_nil_r).
Qed.

(** X11: the Reload button has no effect on the model: with the button
    pressed or not, the model controls leave the same model in use (or raise
    the same exception), the same model file and the same cache; because of
    the cache on [load_model], a reload gives back what the initial load of
    the same run gave.  Only the sidebar messages differ. *)
Theorem reload_button_has_no_effect (C : Core) (E : Env C) (W : widgets)
    (s : state C) :
  let pressed := model_controls C E (with_reload W true) s in
  let released := model_controls C E (with_reload W false) s in
  snd pressed = snd released
  /\ same_store (fst pressed) (fst released).
Proof.
  unfold model_controls.
  destruct (emit_extends (SidebarMarkdown "---") s) as (s1 & R1 & _).
  rewrite !(bind_ok _ _ _ _ _ R1).
  destruct (emit_extends (SidebarSubheader "Model") s1) as (s2 & R2 & _).
  rewrite !(bind_ok _ _ _ _ _ R2).
  destruct (initial_load C s2) as [s3 [sg|e]] eqn:R3.
  2: { rewrite !(bind_raise _ _ _ _ _ R3). by simpl. }
  rewrite !(bind_ok _ _ _ _ _ R3).
  destruct (reload_after_initial_load C (with_reload W true) s2 s3 sg R3)
    as (evs & R4).
  rewrite (bind_ok _ _ _ _ _ R4).
  assert (R4' : reload_block C (with_reload W false) sg s3 = (s3, Ok sg))
    by reflexivity.
  rewrite (bind_ok _ _ _ _ _ R4').
  change (upload_block C E (with_reload W true))
    with (upload_block C E (with_reload W false)).
  change (train_block C E (with_reload W true))
    with (train_block C E (with_reload W false)).
  destruct (upload_block_store C E (with_reload W false) sg
              (add_events s3 evs) s3 (same_store_add_events s3 evs))
    as (Hres & Hstore).
  destruct (upload_block C E (with_reload W false) sg (add_events s3 evs))
    as [s4 r4] eqn:R5.
  destruct (upload_block C E (with_reload W false) sg s3) as [t4 r4'] eqn:R5'.
  simpl in Hres, Hstore. subst r4'.
  destruct r4 as [sg4|e].
  2: { rewrite (bind_raise _ _ _ _ _ R5), (bind_raise _ _ _ _ _ R5'). by simpl. }
  rewrite (bind_ok _ _ _ _ _ R5), (bind_ok _ _ _ _ _ R5').
  apply train_block_store. exact Hstore.
Qed.

Lemma load_model_cached (C : Core) (s : state C) (m : Model C) :
  cache s = Some m -> load_model C s = (s, Ok m).
Proof. intros Hc. unfold load_model. by rewrite Hc. Qed.

Lemma initial_load_cached (C : Core) (s : state C) (m : Model C) (b : string) :
  cache s = Some m -> model_file s = Some b ->
  exists s1 evs,
    initial_load C s = (s1, Ok (Some m))
    /\ quiet s s1 evs /\ cache s1 = Some m /\ model_file s1 = Some b.
Proof.
  intros Hc Hf. destruct s as [u o f c]. simpl in *. subst.
  do 2 eexists. split; [reflexivity|]. quiet_done.
Qed.

Lemma reload_block_cached (C : Core) (W : widgets) (s : state C) (m : Model C) :
  cache s = Some m ->
  exists s1 evs,
    reload_block C W (Some m) s = (s1, Ok (Some m))
    /\ quiet s s1 evs /\ cache s1 = Some m /\ model_file s1 = model_file s.
Proof.
  intros Hc. destruct s as [u o f c]. simpl in *. subst.
  unfold reload_block, try_except, mbind, M_bind, emit, model_path_exists,
    load_model, mret, M_ret.
  simpl. repeat (case_match; simplify_eq/=).
  all: do 2 eexists; (split; [reflexivity|]); quiet_done.
  all: by rewrite app_nil_r.
Qed.

Lemma upload_block_cached (C : Core) (E : Env C) (W : widgets) (s : state C)
    (m : Model C) :
  (forall data, ordinary (write_bytes E data)) ->
  cache s = Some m ->
  exists s1 evs,
    upload_block C E W (Some m) s = (s1, Ok (Some m))
    /\ quiet s s1 evs /\ cache s1 = Some m
    /\ (forall data, uploaded W = Some data -> write_bytes E data = Ok tt ->
          evs = [SidebarSuccess "Uploaded and loaded model."]
          /\ model_file s1 = Some data).
Proof.
  intros Hwrite Hc. destruct s as [u o f c]. simpl in *. subst.
  unfold upload_block, try_except, mbind, M_bind, emit, lift, set_model_file,
    load_model, mret, M_ret.
  destruct (uploaded W) as [data|]; simpl.
  - destruct (write_bytes E data) as [[]|e] eqn:Hw; simpl.
    + do 2 eexists. split; [reflexivity|]. quiet_done.
      all: by intros ? [= <-] _.
    + rewrite (Hwrite data e Hw). simpl.
      do 2 eexists. split; [reflexivity|]. quiet_done.
      all: congruence.
  - exists (mkState u o f (Some m)), []. split; [reflexivity|]. quiet_done.
    by rewrite app_nil_r.
Qed.

Lemma train_block_cached (C : Core) (E : Env C) (W : widgets) (s : state C)
    (m : Model C) :
  ordinary (read_csv_sim E) ->
  (forall df, ordinary (train_and_persist_model C df)) ->
  cache s = Some m ->
  exists s1 evs,
    train_block C E W (Some m) s = (s1, Ok (Some m))
    /\ quiet s s1 evs /\ cache s1 = Some m
    /\ (train_clicked W = false -> model_file s1 = model_file s).
Proof.
  intros Hcsv Htrain Hc. destruct s as [u o f c]. simpl in *. subst.
  unfold train_block, try_except, mbind, M_bind, emit, lift, set_model_file,
    load_model, mret, M_ret.
  simpl. destruct (train_clicked W); simpl.
  - destruct (sim_features_exists E); simpl.
    + destruct (read_csv_sim E) as [df|e] eqn:Hr; simpl.
      * destruct (train_and_persist_model C df) as [b|e] eqn:Ht; simpl.
        -- do 2 eexists. split; [reflexivity|]. quiet_done.
        -- rewrite (Htrain df e Ht). simpl.
           do 2 eexists. split; [reflexivity|]. quiet_done.
      * rewrite (Hcsv e eq_refl). simpl.
        do 2 eexists. split; [reflexivity|]. quiet_done.
    + do 2 eexists. split; [reflexivity|]. quiet_done.
  - do 2 eexists. split; [reflexivity|]. quiet_done.
Qed.

(** X12: a model in the cache is never replaced: when the run starts with a
    cached model and a model file, the model in use after the model controls
    is the cached one, whatever is reloaded, uploaded or trained in the run.
    An upload that is written is reported as loaded and replaces the file,
    but its bytes are not what the run uses. *)
Theorem cached_model_is_never_replaced (C : Core) (E : Env C) (W : widgets)
    (s : state C) (m : Model C) (b : string) :
  env_ordinary C E ->
  cache s = Some m -> model_file s = Some b ->
  exists s1 evs,
    model_controls C E W s = (s1, Ok (Some m))
    /\ quiet s s1 evs
    /\ cache s1 = Some m
    /\ (forall data, uploaded W = Some data -> write_bytes E data = Ok tt ->
          SidebarSuccess "Uploaded and loaded model." ∈ evs
          /\ (train_clicked W = false -> model_file s1 = Some data)).
Proof.
  intros (_ & _ & _ & Htrain & _ & Hcsv & Hwrite & _) Hc Hf.
  unfold model_controls.
  destruct (emit_extends (SidebarMarkdown "---") s) as (s1 & R1 & X1).
  assert (Q1 : quiet s s1 [SidebarMarkdown "---"])
    by (injection R1 as <-; quiet_done).
  rewrite (bind_ok _ _ _ _ _ R1).
  destruct (emit_extends (SidebarSubheader "Model") s1) as (s2 & R2 & X2).
  assert (Q2 : quiet s1 s2 [SidebarSubheader "Model"])
    by (injection R2 as <-; quiet_done).
  rewrite (bind_ok _ _ _ _ _ R2).
  assert (Hc2 : cache s2 = Some m).
  { destruct X1 as (_ & _ & K1), X2 as (_ & _ & K2). congruence. }
  assert (Hf2 : model_file s2 = Some b).
  { destruct X1 as (_ & F1 & _), X2 as (_ & F2 & _). congruence. }
  destruct (initial_load_cached C s2 m b Hc2 Hf2) as (s3 & e3 & R3 & Q3 & Hc3 & _).
  rewrite (bind_ok _ _ _ _ _ R3).
  destruct (reload_block_cached C W s3 m Hc3) as (s4 & e4 & R4 & Q4 & Hc4 & _).
  rewrite (bind_ok _ _ _ _ _ R4).
  destruct (upload_block_cached C E W s4 m Hwrite Hc4)
    as (s5 & e5 & R5 & Q5 & Hc5 & Hup).
  rewrite (bind_ok _ _ _ _ _ R5).
  destruct (train_block_cached C E W s5 m Hcsv Htrain Hc5)
    as (s6 & e6 & R6 & Q6 & Hc6 & Hf6).
  exists s6. eexists. split; [exact R6|]. split.
  { exact (quiet_trans _ _ _ _ _ Q1
             (quiet_trans _ _ _ _ _ Q2
                (quiet_trans _ _ _ _ _ Q3
                   (quiet_trans _ _ _ _ _ Q4 (quiet_trans _ _ _ _ _ Q5 Q6))))). }
  split; [exact Hc6|].
  intros data Hdata Hw. destruct (Hup data Hdata Hw) as (-> & Hf5). split.
  - rewrite !elem_of_app. do 4 right. left. apply list_elem_of_here.
  - intros Hnt. by rewrite (Hf6 Hnt).
Qed.

Lemma cached_model_is_never_replaced_witness :
  exists s1 evs,
    model_controls file_core (file_env offline_http) (upload_widgets "corrupt")
      cached_state = (s1, Ok (Some model_v1))
    /\ quiet cached_state s1 evs
    /\ cache s1 = Some model_v1
    /\ (forall data,
          uploaded (upload_widgets "corrupt") = Some data ->
          write_bytes (file_env offline_http) data = Ok tt ->
          SidebarSuccess "Uploaded and loaded model." ∈ evs
          /\ (train_clicked (upload_widgets "corrupt") = false ->
              model_file s1 = Some data)).
Proof.
  apply (cached_model_is_never_replaced file_core (file_env offline_http)
           (upload_widgets "corrupt") cached_state model_v1 "v1").
  - exact file_env_ordinary.
  - reflexivity.
  - reflexivity.
Defined.

(** The page and the store of that run: the corrupt upload is on disk and
    reported as loaded, the session keeps the model "v1". *)
Example corrupt_upload_over_cached_model :
  model_controls file_core (file_env offline_http) (upload_widgets "corrupt")
    cached_state
  = (mkState
       [ SidebarMarkdown "---";
         SidebarSubheader "Model";
         SidebarWrite "Loaded from models/isolation_model.joblib";
         SidebarSuccess "Uploaded and loaded model.";
         SidebarMarkdown "---" ]
       [] (Some "corrupt") (Some model_v1),
     Ok (Some model_v1)).
Proof. reflexivity. Qed.

(** X13: an upload is written before it is loaded.  With an empty cache, an
    upload that loads becomes the model in use and the cached one; an upload
    that does not load is reported, leaves the model in use as it was, and
    has already replaced the model file. *)
Theorem upload_writes_before_loading (C : Core) (E : Env C) (W : widgets)
    (sg : option (Model C)) (s : state C) (data : string) :
  uploaded W = Some data -> write_bytes E data = Ok tt -> cache s = None ->
  (forall m, model_load C data = Ok m ->
     upload_block C E W sg s
     = (mkState (ui s ++ [SidebarSuccess "Uploaded and loaded model."])
          (stdout s) (Some data) (Some m), Ok (Some m)))
  /\ (forall e, model_load C data = Raise e ->
        is_Exception (exn_cls e) = true ->
        upload_block C E W sg s
        = (mkState
             (ui s ++ [SidebarError
                         ("Failed to save/load uploaded model: " +:+ exn_msg e)])
             (stdout s) (Some data) None, Ok sg)).
Proof.
  intros Hup Hw Hc. destruct s as [u o f c]. simpl in Hc. subst c.
  unfold upload_block, try_except, mbind, M_bind, emit, lift, set_model_file,
    load_model, mret, M_ret.
  rewrite Hup, Hw. simpl. split.
  - by intros m ->.
  - intros e -> He. by rewrite He.
Qed.

Lemma upload_writes_before_loading_witness :
  upload_block file_core (file_env offline_http) (upload_widgets "corrupt")
    None stored_state
  = (mkState
       [SidebarError
          "Failed to save/load uploaded model: unsupported pickle protocol"]
       [] (Some "corrupt") None, Ok None).
Proof.
  exact (proj2 (upload_writes_before_loading file_core
                  (file_env offline_http) (upload_widgets "corrupt") None
                  stored_state "corrupt" eq_refl eq_refl eq_refl)
           (mkExn ValueError "unsupported pickle protocol") eq_refl eq_refl).
Defined.

(** *** The model file is only written by an upload or a training *)

Lemma keeps_file_ret {C A} (a : A) : keeps_file (C := C) (mret a).
Proof. by intros s. Qed.

Lemma keeps_file_bind {C A B} (m : M C A) (k : A -> M C B) :
  keeps_file m -> (forall a, keeps_file (k a)) -> keeps_file (m ≫= k).
Proof.
  intros Hm Hk s. unfold mbind, M_bind. specialize (Hm s).
  destruct (m s) as [s' [a|e]]; simpl in *; [|done].
  by rewrite Hk.
Qed.

Lemma keeps_file_try_except {C A} (body : M C A) (handler : exn -> M C A) :
  keeps_file body -> (forall e, keeps_file (handler e)) ->
  keeps_file (try_except body handler).
Proof.
  intros Hb Hh s. unfold try_except. specialize (Hb s).
  destruct (body s) as [s' [a|e]]; simpl in *; [done|].
  destruct (is_Exception (exn_cls e)); [|done]. by rewrite Hh.
Qed.

Lemma keeps_file_emit {C} (ev : ui_event C) : keeps_file (emit ev).
Proof. by intros s. Qed.

Lemma keeps_file_lift {C A} (r : result A) : keeps_file (C := C) (lift r).
Proof. by intros s. Qed.

Lemma keeps_file_for_each {C A} (xs : list A) (body : A -> M C unit) :
  (forall x, keeps_file (body x)) -> keeps_file (for_each xs body).
Proof.
  intros Hb. induction xs as [|x xs IH]; [by intros s|].
  simpl. apply keeps_file_bind; [apply Hb | intros _; exact IH].
Qed.

Lemma keeps_file_load_model (C : Core) : keeps_file (load_model C).
Proof.
  intros s. unfold load_model.
  destruct (cache s); [done|].
  destruct (model_file s) as [b|] eqn:Hf; [|done].
  by destruct (model_load C b).
Qed.

Lemma keeps_file_model_path_exists {C} : keeps_file (C := C) model_path_exists.
Proof. by intros s. Qed.

Lemma keeps_file_fetch_step (C : Core) (E : Env C) (W : widgets) :
  keeps_file (fetch_step C E W).
Proof. by intros s. Qed.

Create HintDb keeps discriminated.
#[local] Hint Resolve keeps_file_ret keeps_file_emit keeps_file_lift
  keeps_file_load_model keeps_file_model_path_exists keeps_file_fetch_step
  : keeps.

Ltac keeps_step :=
  first [ apply keeps_file_bind; [|intros ?]
        | apply keeps_file_try_except; [|intros ?]
        | apply keeps_file_for_each; intros ?
        | solve [auto with keeps]
        | match goal with
          | |- keeps_file (if ?b then _ else _) => destruct b
          | |- keeps_file (match ?x with _ => _ end) => destruct x
          end ].

Lemma keeps_file_analyze_block (C : Core) (E : Env C) (W : widgets)
    (sg : option (Model C)) :
  keeps_file (analyze_block C E W sg).
Proof.
  unfold analyze_block, fetch_block, dataframe_block, scoring_paths,
    score_block, heuristics_block, raw_block.
  repeat keeps_step.
Qed.

Lemma keeps_file_model_controls (C : Core) (E : Env C) (W : widgets) :
  uploaded W = None -> train_clicked W = false ->
  keeps_file (model_controls C E W).
Proof.
  intros Hup Htr.
  unfold model_controls, initial_load, reload_block, upload_block, train_block.
  rewrite Hup, Htr.
  repeat keeps_step.
Qed.

(** X14: without an upload and without training the script never writes the
    model file: at the end of the run, also of a run that raises, the file is
    what it was at the start. *)
Theorem script_keeps_model_file (C : Core) (E : Env C) (W : widgets)
    (s : state C) :
  uploaded W = None -> train_clicked W = false ->
  model_file (fst (script C E W s)) = model_file s.
Proof.
  intros Hup Htr. revert s.
  change (keeps_file (script C E W)). unfold script.
  apply keeps_file_bind; [by apply keeps_file_model_controls|]. intros sg.
  apply keeps_file_bind.
  { unfold main_area_header. repeat keeps_step. }
  intros _. destruct (analyze_clicked W);
    [apply keeps_file_analyze_block | apply keeps_file_ret].
Qed.

Lemma script_keeps_model_file_witness :
  model_file (fst (script file_core (unreadable_csv_env offline_http)
                     sample_widgets stored_state))
  = model_file stored_state.
Proof.
  apply (script_keeps_model_file file_core (unreadable_csv_env offline_http)
           sample_widgets stored_state); reflexivity.
Defined.

(** *** What the script asks of the HTTP layer *)

Lemma fetch_transactions_same_answer (http http' : http_layer) (out : console)
    (address api_key startblock endblock sort : pyobj) :
  http (fetch_request address api_key startblock endblock sort)
  = http' (fetch_request address api_key startblock endblock sort) ->
  fetch_transactions http out address api_key startblock endblock sort
  = fetch_transactions http' out address api_key startblock endblock sort.
Proof.
  intros Hsame. rewrite !fetch_transactions_body. unfold fetch_body.
  unfold fetch_request in Hsame. by rewrite Hsame.
Qed.

Lemma script_same_fetch (C : Core) (E : Env C) (W : widgets)
    (net : http_layer) (s : state C) :
  (analyze_clicked W = true -> use_sample W = false -> wallet W <> "" ->
   forall s0, fetch_block C E W s0 = fetch_block C (with_http E net) W s0) ->
  script C E W s = script C (with_http E net) W s.
Proof.
  intros Hfetch. unfold script, mbind, M_bind.
  change (model_controls C (with_http E net) W s) with (model_controls C E W s).
  destruct (model_controls C E W s) as [s1 [sg|e]]; [|reflexivity].
  change (main_area_header C (with_http E net) s1) with (main_area_header C E s1).
  destruct (main_area_header C E s1) as [s2 [[]|e]]; [|reflexivity].
  destruct (analyze_clicked W) eqn:Han; [|reflexivity].
  unfold analyze_block.
  destruct (use_sample W) eqn:Hsample; [reflexivity|].
  destruct (py_truthy_str (wallet W)) eqn:Hwallet; [|reflexivity].
  simpl. unfold mbind at 1 6. unfold M_bind at 1 6.
  rewrite Hfetch; try done.
  intros Hw. unfold py_truthy_str in Hwallet. by rewrite Hw in Hwallet.
Qed.

(** X15: the script consults the HTTP layer through one request at most, the
    transaction list of the wallet with the key of the sidebar: with another
    HTTP layer that answers this request the same way, the whole run is the
    same. *)
Theorem script_single_request (C : Core) (E : Env C) (W : widgets)
    (net : http_layer) (s : state C) :
  http E (script_request W) = net (script_request W) ->
  script C E W s = script C (with_http E net) W s.
Proof.
  intros Hsame. apply script_same_fetch. intros _ _ _ s0.
  unfold fetch_block. destruct (py_truthy_str (etherscan_key W)); [|reflexivity].
  unfold try_except, mbind, M_bind, fetch_step, fetch_transactions_default.
  simpl.
  unfold script_request in Hsame.
  by rewrite (fetch_transactions_same_answer (http E) net _ _ _ _ _ _ Hsame).
Qed.

Lemma script_single_request_witness :
  script file_core
    (file_env (answers_in_20 (no_transactions_http (script_request keyed_widgets))))
    keyed_widgets stored_state
  = script file_core
      (with_http
         (file_env
            (answers_in_20 (no_transactions_http (script_request keyed_widgets))))
         no_transactions_http)
      keyed_widgets stored_state.
Proof.
  apply (script_single_request file_core
           (file_env
              (answers_in_20 (no_transactions_http (script_request keyed_widgets))))
           keyed_widgets no_transactions_http stored_state).
  reflexivity.
Defined.

(** X16: the script sends no request at all unless Analyze is pressed, the
    sample box is not ticked, a wallet is entered and a key is given: when
    one of the four fails, the run is the same under every HTTP layer. *)
Theorem script_without_request (C : Core) (E : Env C) (W : widgets)
    (net : http_layer) (s : state C) :
  analyze_clicked W = false \/ use_sample W = true \/ wallet W = ""
  \/ etherscan_key W = "" ->
  script C E W s = script C (with_http E net) W s.
Proof.
  intros Hcase. apply script_same_fetch. intros Han Hsample Hwallet s0.
  destruct Hcase as [H | [H | [H | H]]]; try congruence.
  unfold fetch_block, py_truthy_str. by rewrite H.
Qed.

Lemma script_without_request_witness :
  script file_core (file_env offline_http) analyze_widgets stored_state
  = script file_core (with_http (file_env offline_http) interrupted_http)
      analyze_widgets stored_state.
Proof.
  apply (script_without_request file_core (file_env offline_http)
           analyze_widgets interrupted_http stored_state).
  do 3 right. reflexivity.
Defined.

(** *** What the model path shows *)

(** X17: with a model loaded, the score is shown exactly when the prediction
    returns a result with a score that formats, and the error message of the
    model path is shown exactly when the prediction is not complete (it
    raised, or the score, its formatting, the label or the raw score is
    missing): a prediction with a score but no label shows the score and the
    error.  In every case the model path returns. *)
Theorem score_block_shows (C : Core) (E : Env C) (m : Model C)
    (feat : gmap string pyobj) (s : state C) :
  (forall m', ordinary (predict_score C m' feat)) ->
  (forall v, ordinary (format_3f E v)) ->
  exists s' evs,
    score_block C E (Some m) feat s = (s', Ok tt)
    /\ extends s s' evs
    /\ (existsb is_metric evs = true <-> exists shown, scored C E m feat shown)
    /\ (forall shown, scored C E m feat shown ->
          head evs
          = Some (StMetric "Suspicion Score (0 = normal, 1 = suspicious)" shown))
    /\ (existsb is_error evs = true <-> ~ complete_prediction C E m feat).
Proof.
  intros Hpred Hfmt. unfold score_block, scored, complete_prediction, scored.
  unfold try_except, mbind, M_bind, lift, emit. simpl.
  destruct (predict_score C m feat) as [res|e] eqn:Hp; simpl.
  2: { rewrite (Hpred m e Hp). do 2 eexists. split; [reflexivity|].
       split; [unfold extends; simpl; by rewrite <- ?app_assoc|]. simpl.
       split; [split; [done | by intros (? & ? & ? & ? & _)]|].
       split; [by intros ? (? & ? & ? & _)|].
       split; [by intros _ (? & ? & ? & ? & _ & ? & _) | done]. }
  destruct (py_getitem res "score") as [sc|e] eqn:Hs; simpl.
  2: { rewrite (py_getitem_ordinary _ _ e Hs). do 2 eexists.
       split; [reflexivity|].
       split; [unfold extends; simpl; by rewrite <- ?app_assoc|]. simpl.
       split; [split; [done | intros (? & ? & ? & ? & ? & _); congruence]|].
       split; [intros ? (? & ? & ? & ? & _); congruence|].
       split; [|done].
       intros _ (? & ? & ? & ? & (? & ? & ? & ? & _) & _). congruence. }
  destruct (format_3f E sc) as [shown|e] eqn:Hf; simpl.
  2: { rewrite (Hfmt sc e Hf). do 2 eexists. split; [reflexivity|].
       split; [unfold extends; simpl; by rewrite <- ?app_assoc|]. simpl.
       split; [split; [done | intros (? & ? & ? & ? & ? & ?); congruence]|].
       split; [intros ? (? & ? & ? & ? & ?); congruence|].
       split; [|done].
       intros _ (? & ? & ? & ? & (? & ? & ? & ? & ?) & _). congruence. }
  assert (Hscored : exists shown0 res0 v0,
            Ok res = Ok res0 /\ py_getitem res0 "score" = Ok v0
            /\ format_3f E v0 = Ok shown0) by (by exists shown, res, sc).
  assert (Hhead : forall shown0,
            (exists res0 v0, Ok res = Ok res0 /\ py_getitem res0 "score" = Ok v0
                             /\ format_3f E v0 = Ok shown0) ->
            shown0 = shown).
  { intros shown0 (res0 & v0 & [= <-] & H1 & H2). congruence. }
  destruct (py_getitem res "label") as [lb|e] eqn:Hl; simpl.
  2: { rewrite (py_getitem_ordinary _ _ e Hl). do 2 eexists.
       split; [reflexivity|].
       split; [unfold extends; simpl; by rewrite <- ?app_assoc|]. simpl.
       split; [by split|].
       split; [intros shown0 H0; by rewrite (Hhead shown0 H0)|].
       split; [|done].
       intros _ (? & ? & ? & ? & _ & [= <-] & ? & _). congruence. }
  destruct (py_getitem res "raw") as [rw|e] eqn:Hr; simpl.
  2: { rewrite (py_getitem_ordinary _ _ e Hr). do 2 eexists.
       split; [reflexivity|].
       split; [unfold extends; simpl; by rewrite <- ?app_assoc|]. simpl.
       split; [by split|].
       split; [intros shown0 H0; by rewrite (Hhead shown0 H0)|].
       split; [|done].
       intros _ (? & ? & ? & ? & _ & [= <-] & _ & ?). congruence. }
  do 2 eexists. split; [reflexivity|].
  split; [unfold extends; simpl; by rewrite <- ?app_assoc|]. simpl.
  split; [by split|].
  split; [intros shown0 H0; by rewrite (Hhead shown0 H0)|].
  split; [done|]. intros Hn. destruct Hn.
  exists res, shown, lb, rw. split; [by exists res, sc | done].
Qed.

Lemma score_block_shows_witness :
  exists s' evs,
    score_block (toy_core unlabelled_prediction)
      (toy_env unlabelled_prediction offline_http) (Some tt) scenario_2
      (fresh_state _ None) = (s', Ok tt)
    /\ extends (fresh_state _ None) s' evs
    /\ (existsb is_metric evs = true <->
        exists shown,
          scored (toy_core unlabelled_prediction)
            (toy_env unlabelled_prediction offline_http) tt scenario_2 shown)
    /\ (forall shown,
          scored (toy_core unlabelled_prediction)
            (toy_env unlabelled_prediction offline_http) tt scenario_2 shown ->
          head evs
          = Some (StMetric "Suspicion Score (0 = normal, 1 = suspicious)" shown))
    /\ (existsb is_error evs = true <->
        ~ complete_prediction (toy_core unlabelled_prediction)
            (toy_env unlabelled_prediction offline_http) tt scenario_2).
Proof.
  apply (score_block_shows (toy_core unlabelled_prediction)
           (toy_env unlabelled_prediction offline_http) tt scenario_2).
  - intros m e. discriminate.
  - intros v e. discriminate.
Defined.

(** *** The fallback of the conversion *)






(** *** The model file and the model in use *)

(** X19: without a model file there is no model in use, even when the cache
    holds one: the sidebar says "Not loaded", Reload only warns that no file
    is found, and [load_model] is not called (nothing is assumed of the
    core). *)
Theorem missing_file_means_no_model (C : Core) (E : Env C) (W : widgets)
    (s : state C) :
  model_file s = None -> uploaded W = None -> train_clicked W = false ->
  exists evs,
    model_controls C E W s = (add_events s evs, Ok None)
    /\ SidebarWrite "Not loaded" ∈ evs
    /\ (reload_clicked W = true ->
        SidebarWarning "No model file found. Train or upload one." ∈ evs)
    /\ (forall m, SidebarSuccess m ∉ evs).
Proof.
  intros Hf Hup Htr. destruct s as [u o f c]. simpl in Hf. subst f.
  unfold model_controls, initial_load, reload_block, upload_block, train_block.
  rewrite Hup, Htr.
  unfold try_except, mbind, M_bind, emit, model_path_exists, mret, M_ret,
    add_events.
  simpl. destruct (reload_clicked W); simpl.
  all: eexists; (split; [by rewrite <- !app_assoc|]); simpl.
  all: split; [repeat first [apply list_elem_of_here | apply list_elem_of_further]|].
  all: split;
    [try done; intros _;
     repeat first [apply list_elem_of_here | apply list_elem_of_further]|].
  all: intros m Hin;
    repeat (apply elem_of_cons in Hin as [Hin|Hin]; [discriminate|]);
    by apply elem_of_nil in Hin.
Qed.

Lemma missing_file_means_no_model_witness :
  exists evs,
    model_controls file_core (file_env offline_http) reload_widgets
      orphaned_cache_state = (add_events orphaned_cache_state evs, Ok None)
    /\ SidebarWrite "Not loaded" ∈ evs
    /\ (reload_clicked reload_widgets = true ->
        SidebarWarning "No model file found. Train or upload one." ∈ evs)
    /\ (forall m, SidebarSuccess m ∉ evs).
Proof.
  apply (missing_file_means_no_model file_core (file_env offline_http)
           reload_widgets orphaned_cache_state); reflexivity.
Defined.

(** X20: a training is stored before it is loaded.  With an empty cache and a
    readable CSV, a trained model that loads becomes the model in use; one
    that does not load is reported as a failed training, although it has been
    trained and has replaced the model file, and the model in use stays as it
    was. *)
Theorem training_stores_before_loading (C : Core) (E : Env C) (W : widgets)
    (sg : option (Model C)) (s : state C) (df : DataFrame C) (b : string) :
  train_clicked W = true -> sim_features_exists E = true ->
  read_csv_sim E = Ok df -> train_and_persist_model C df = Ok b ->
  cache s = None ->
  (forall m, model_load C b = Ok m ->
     train_block C E W sg s
     = (mkState
          (ui s ++ [SidebarMarkdown "---";
                    SidebarSuccess ("Model trained and saved to " +:+ MODEL_PATH)])
          (stdout s) (Some b) (Some m), Ok (Some m)))
  /\ (forall e, model_load C b = Raise e ->
        is_Exception (exn_cls e) = true ->
        train_block C E W sg s
        = (mkState
             (ui s ++ [SidebarMarkdown "---";
                       SidebarError ("Training failed: " +:+ exn_msg e);
                       SidebarText (format_exc E e)])
             (stdout s) (Some b) None, Ok sg)).
Proof.
  intros Htr Hsim Hread Htrain Hc. destruct s as [u o f c]. simpl in Hc. subst c.
  unfold train_block, try_except, mbind, M_bind, emit, lift, set_model_file,
    load_model, mret, M_ret.
  rewrite Htr, Hsim, Hread. simpl. rewrite Htrain. simpl. split.
  - intros m ->. simpl. by rewrite <- !app_assoc.
  - intros e -> He. simpl. rewrite He. simpl. by rewrite <- !app_assoc.
Qed.

Lemma training_stores_before_loading_witness :
  train_block bad_trainer_core (bad_trainer_env offline_http) train_widgets
    None bad_trainer_state
  = (mkState
       [SidebarMarkdown "---";
        SidebarError "Training failed: unsupported pickle protocol";
        SidebarText "unsupported pickle protocol"]
       [] (Some "corrupt") None, Ok None).
Proof.
  exact (proj2 (training_stores_before_loading bad_trainer_core
                  (bad_trainer_env offline_http) train_widgets None
                  bad_trainer_state [] "corrupt"
                  eq_refl eq_refl eq_refl eq_refl eq_refl)
           (mkExn ValueError "unsupported pickle protocol") eq_refl eq_refl).
Defined.
